(** * Macro-indicator pipeline of investment-dashboard: a shallow embedding

    Python sources embedded here:
    - app/client/fred_macro_data_client.py   (FRED client, series shape)
    - src/client/fred_macro_data_client.py   (FRED client, "latest" shape)
    - src/client/trading_economics_client.py (PMI client, "latest" shape)
    - src/client/yahoo_finance_client.py     (commodity client)
    - app/repository/macro_indicator_repo.py (MacroIndicatorRepository)
    - app/service/macro_data_service.py      (MacroDataService)

    Conventions.
    - A Python/numpy float is [flt]: [Fin z] is a number (amounts kept as
      integers, e.g. yields in basis points) and [NaN] is the missing value
      pandas produces; arithmetic with [NaN] gives [NaN].
    - A datetime or pandas Timestamp is a [Z] counting microseconds since
      1970-01-01T00:00:00; its calendar day is the floor division by
      [us_per_day].
    - A pandas Series is an association list from timestamps to floats, in
      index order.
    - A Python dict is an association list with Python's insertion
      semantics (re-assigning a key keeps its position).
    - The database is MySQL through PyMySQL
      ([DATABASE_URL = "mysql+pymysql://..."], app/config/db_config.py):
      PyMySQL's [escape_float] refuses [nan] ("nan can not be used with
      MySQL"), so a commit that writes a NaN value raises
      [ProgrammingError] before anything reaches the server. *)

From Stdlib Require Import ZArith List String Bool Lia.
Import ListNotations.
Open Scope Z_scope.
Open Scope list_scope.

(* ------------------------------------------------------------------ *)
(** ** Floats, timestamps, series *)

Inductive flt : Type :=
| Fin (z : Z)
| NaN.

(** [a - b] on numpy floats. *)
Definition fsub (a b : flt) : flt :=
  match a, b with
  | Fin x, Fin y => Fin (x - y)
  | _, _ => NaN
  end.

(** [pd.notna(v)] *)
Definition notna (v : flt) : bool :=
  match v with Fin _ => true | NaN => false end.

Definition us_per_day : Z := 86400000000.

(** The timestamp of midnight starting day number [d]. *)
Definition midnight (d : Z) : Z := d * us_per_day.

(** The calendar day of a timestamp. *)
Definition day_of (t : Z) : Z := t / us_per_day.

Definition Series := list (Z * flt).

(** [s.get(d)]: the value at index [d], if [d] is in the index. *)
Fixpoint series_at (d : Z) (s : Series) : option flt :=
  match s with
  | [] => None
  | (d', v) :: s' => if d =? d' then Some v else series_at d s'
  end.

(** [s.dropna()] *)
Definition dropna (s : Series) : Series :=
  filter (fun '(_, v) => notna v) s.

(** A strictly increasing index (what FRED returns for a series). *)
Fixpoint increasing (s : Series) : bool :=
  match s with
  | [] => true
  | (d, _) :: s' =>
      forallb (fun '(d', _) => d <? d') s' && increasing s'
  end.

(* ------------------------------------------------------------------ *)
(** ** [Series.align] (default [join='outer']) and [Series.__sub__]

    pandas aligns two series with monotonic indexes by a merge of the two
    indexes: the result index is the sorted union, and a position missing
    from one side holds [NaN] on that side. *)

Fixpoint align_join (a b : Series) : list (Z * (flt * flt)) :=
  match a with
  | [] => map (fun '(d, y) => (d, (NaN, y))) b
  | (da, x) :: a' =>
      (fix align_b (bb : Series) : list (Z * (flt * flt)) :=
         match bb with
         | [] => map (fun '(d, x0) => (d, (x0, NaN))) a
         | (db, y) :: b' =>
             if da <? db then (da, (x, NaN)) :: align_join a' bb
             else if db <? da then (db, (NaN, y)) :: align_b b'
             else (da, (x, y)) :: align_join a' b'
         end) b
  end.

(** [left.align(right)]: both series reindexed on the joined index. *)
Definition series_align (a b : Series) : Series * Series :=
  let j := align_join a b in
  (map (fun '(d, (x, _)) => (d, x)) j, map (fun '(d, (_, y)) => (d, y)) j).

(** [left - right] on two series with the same index. *)
Definition series_sub (a b : Series) : Series :=
  map (fun '((d, x), (_, y)) => (d, fsub x y)) (combine a b).

(** [aligned_10y, aligned_2y = dgs10_series.align(dgs2_series)];
    [spread = aligned_10y - aligned_2y]. *)
Definition spread (a b : Series) : Series :=
  let '(a', b') := series_align a b in series_sub a' b'.

(* ------------------------------------------------------------------ *)
(** ** Python dicts *)

Definition Dict (V : Type) := list (string * V).

(** [d[k]] when [k in d]. *)
Fixpoint dict_lookup {V} (k : string) (d : Dict V) : option V :=
  match d with
  | [] => None
  | (k', v) :: d' => if String.eqb k k' then Some v else dict_lookup k d'
  end.

(** [d[k] = v]: overwrite in place, or append a new key. *)
Fixpoint dict_set {V} (k : string) (v : V) (d : Dict V) : Dict V :=
  match d with
  | [] => [(k, v)]
  | (k', v') :: d' =>
      if String.eqb k k' then (k, v) :: d' else (k', v') :: dict_set k v d'
  end.

(** [d.get(k)] on a dict whose values are optional ([None] allowed). *)
Definition dict_get {V} (k : string) (d : Dict (option V)) : option V :=
  match dict_lookup k d with
  | Some (Some v) => Some v
  | _ => None
  end.

(* ------------------------------------------------------------------ *)
(** ** The [macro_indicator] table and the repository session *)

Record Row : Type := mkRow {
  row_id : Z;
  row_type : string;
  row_name : string;
  row_value : flt;
  row_date_time : Z;
  row_is_leading_indicator : bool;
  row_region : string;
  row_creation_data_time : Z
}.

(** The committed table, the next autoincrement id and the clock read by
    [datetime.utcnow()]. *)
Record Store : Type := mkStore {
  rows : list Row;
  next_id : Z;
  utcnow : Z
}.

Inductive PyExc : Type :=
| TypeError
| AttributeError (name : string)
| ProgrammingError.

Inductive Outcome (A : Type) : Type :=
| Ok (a : A)
| Raise (e : PyExc).
Arguments Ok {A} a.
Arguments Raise {A} e.

(** Every repository call commits, so an exception leaves the writes
    already committed in place: the store is returned on both paths
    ([session.rollback()] has nothing left to undo). *)
Definition M (A : Type) : Type := Store -> Outcome A * Store.

Definition ret {A} (a : A) : M A := fun s => (Ok a, s).

Definition raise {A} (e : PyExc) : M A := fun s => (Raise e, s).

Definition bind {A B} (c : M A) (k : A -> M B) : M B :=
  fun s =>
    match c s with
    | (Ok a, s') => k a s'
    | (Raise e, s') => (Raise e, s')
    end.

Notation "x <- c1 ;; c2" := (bind c1 (fun x => c2))
  (at level 61, c1 at next level, right associativity).
Notation "c1 ;;; c2" := (bind c1 (fun _ => c2))
  (at level 61, right associativity).

Definition set_rows (s : Store) (rs : list Row) : Store :=
  mkStore rs (next_id s) (utcnow s).

Module Repo.

(** [MacroIndicatorRepository.create]: one committed row, fresh id,
    [creation_data_time=datetime.utcnow()]. The [session.commit()] flushes
    the INSERT; with a NaN value the driver raises while escaping the
    parameters, so nothing is inserted and no id is used. *)
Definition create (type name : string) (value : flt) (date_time : Z)
    (is_leading_indicator : bool) (region : string) : M Row :=
  fun s =>
    let r := mkRow (next_id s) type name value date_time
                   is_leading_indicator region (utcnow s) in
    if notna value
    then (Ok r, mkStore (rows s ++ [r]) (next_id s + 1) (utcnow s))
    else (Raise ProgrammingError, s).

(** The filter of [find_by_type_and_date]:
    [type == indicator_type], [date_time >= start_of_day],
    [date_time <= end_of_day], where the bounds are
    [datetime.combine(d, datetime.min.time())] and
    [datetime.combine(d, datetime.max.time())] (23:59:59.999999). *)
Definition day_filter (indicator_type : string) (date_time : Z) (r : Row)
    : bool :=
  let start_of_day := midnight (day_of date_time) in
  let end_of_day := start_of_day + us_per_day - 1 in
  String.eqb (row_type r) indicator_type
  && (start_of_day <=? row_date_time r)
  && (row_date_time r <=? end_of_day).

(** [query(...).filter(...).first()]: the first matching row in the order
    the query yields them (here: table order). *)
Definition find_by_type_and_date (indicator_type : string) (date_time : Z)
    : M (option Row) :=
  fun s => (Ok (find (day_filter indicator_type date_time) (rows s)), s).

(** [session.delete(indicator); session.commit()]: removes the row with
    that primary key. *)
Definition delete (indicator : Row) : M bool :=
  fun s =>
    (Ok true,
     set_rows s (filter (fun r => negb (row_id r =? row_id indicator)) (rows s))).

(** The methods [MacroIndicatorRepository] defines. *)
Definition method_names : list string :=
  ["__init__"; "create"; "get_by_id"; "get_all"; "get_by_type";
   "get_by_name"; "find_by_type_and_date"; "update"; "delete"; "close"]%string.

(** Attribute lookup [repo.find_by_region_date_range]: the class defines
    no method of that name (it is not among [method_names]), so the lookup
    finds nothing and Python raises [AttributeError]. *)
Definition find_by_region_date_range
    : option (Z -> Z -> string -> M (list Row)) :=
  None.

(** [get_by_id]: [query.filter(id == indicator_id).first()]. *)
Definition get_by_id (indicator_id : Z) : M (option Row) :=
  fun s => (Ok (find (fun r => row_id r =? indicator_id) (rows s)), s).

(** [get_all]: [query.all()]. *)
Definition get_all : M (list Row) := fun s => (Ok (rows s), s).

(** [get_by_type]: [query.filter(type == indicator_type).all()]. *)
Definition get_by_type (indicator_type : string) : M (list Row) :=
  fun s => (Ok (filter (fun r => String.eqb (row_type r) indicator_type) (rows s)), s).

(** [get_by_name]: [query.filter(name == name).all()]. *)
Definition get_by_name (name : string) : M (list Row) :=
  fun s => (Ok (filter (fun r => String.eqb (row_name r) name) (rows s)), s).

(** A keyword argument of [update]: one per column of [MacroIndicator], and
    [KwOther] for a key that is not an attribute of the instance
    ([hasattr] is false, the key is skipped). *)
Inductive Kwarg : Type :=
| KwId (v : Z)
| KwType (v : string)
| KwName (v : string)
| KwValue (v : flt)
| KwDateTime (v : Z)
| KwIsLeadingIndicator (v : bool)
| KwRegion (v : string)
| KwCreationDataTime (v : Z)
| KwOther (key : string).

(** [if hasattr(indicator, key): setattr(indicator, key, value)] *)
Definition set_kwarg (r : Row) (kw : Kwarg) : Row :=
  match kw with
  | KwId v => mkRow v (row_type r) (row_name r) (row_value r) (row_date_time r)
                (row_is_leading_indicator r) (row_region r) (row_creation_data_time r)
  | KwType v => mkRow (row_id r) v (row_name r) (row_value r) (row_date_time r)
                  (row_is_leading_indicator r) (row_region r) (row_creation_data_time r)
  | KwName v => mkRow (row_id r) (row_type r) v (row_value r) (row_date_time r)
                  (row_is_leading_indicator r) (row_region r) (row_creation_data_time r)
  | KwValue v => mkRow (row_id r) (row_type r) (row_name r) v (row_date_time r)
                   (row_is_leading_indicator r) (row_region r) (row_creation_data_time r)
  | KwDateTime v => mkRow (row_id r) (row_type r) (row_name r) (row_value r) v
                      (row_is_leading_indicator r) (row_region r) (row_creation_data_time r)
  | KwIsLeadingIndicator v =>
      mkRow (row_id r) (row_type r) (row_name r) (row_value r) (row_date_time r)
        v (row_region r) (row_creation_data_time r)
  | KwRegion v => mkRow (row_id r) (row_type r) (row_name r) (row_value r)
                    (row_date_time r) (row_is_leading_indicator r) v
                    (row_creation_data_time r)
  | KwCreationDataTime v =>
      mkRow (row_id r) (row_type r) (row_name r) (row_value r) (row_date_time r)
        (row_is_leading_indicator r) (row_region r) v
  | KwOther _ => r
  end.

(** [for key, value in kwargs.items(): ...], in the order of the call. *)
Definition apply_kwargs (r : Row) (kwargs : list Kwarg) : Row :=
  fold_left set_kwarg kwargs r.

(** The session holds one object per row: the object [get_by_id] returned
    is the first row with that id; its modification is committed in place. *)
Fixpoint replace_first (indicator_id : Z) (r' : Row) (rs : list Row) : list Row :=
  match rs with
  | [] => []
  | r :: rs' =>
      if row_id r =? indicator_id then r' :: rs'
      else r :: replace_first indicator_id r' rs'
  end.

(** Whether the keyword arguments assign the [value] attribute, so that
    the flushed UPDATE writes it. *)
Definition sets_value (kwargs : list Kwarg) : bool :=
  existsb (fun kw => match kw with KwValue _ => true | _ => false end) kwargs.

(** [update]: [indicator = self.get_by_id(indicator_id)]; when found, set
    the attributes, commit, return it; otherwise return [None]. The commit
    raises when the UPDATE writes a NaN value. *)
Definition update (indicator_id : Z) (kwargs : list Kwarg) : M (option Row) :=
  fun s =>
    match find (fun r => row_id r =? indicator_id) (rows s) with
    | None => (Ok None, s)
    | Some r =>
        let r' := apply_kwargs r kwargs in
        if sets_value kwargs && negb (notna (row_value r'))
        then (Raise ProgrammingError, s)
        else (Ok (Some r'), set_rows s (replace_first indicator_id r' (rows s)))
    end.

End Repo.

(* ------------------------------------------------------------------ *)
(** ** Provider clients *)

(** A dict value handed to a save routine: a float (the "latest" clients)
    or a pandas Series (the series clients of [app/]). *)
Inductive PyObj : Type :=
| PFloat (f : flt)
| PSeries (s : Series).

(** [float(obj)]: a Series converts only when it has exactly one element
    (pandas' [Series.__float__]); otherwise [TypeError]. *)
Definition py_float (obj : PyObj) : M flt :=
  match obj with
  | PFloat f => ret f
  | PSeries [(_, v)] => ret v
  | PSeries _ => raise TypeError
  end.

(** What [fred.get_series(series_id, observation_start, observation_end)]
    gives back: the observations, or an exception (network, auth, unknown
    series). *)
Inductive FredResp : Type :=
| FredOk (data : Series)
| FredError.

(** A FRED endpoint: series id, start, end. *)
Definition Fred := string -> Z -> Z -> FredResp.

Fixpoint last_opt {A} (l : list A) : option A :=
  match l with
  | [] => None
  | [x] => Some x
  | _ :: l' => last_opt l'
  end.

(** [str.lower()] on ASCII. *)
Definition ascii_lower (c : Ascii.ascii) : Ascii.ascii :=
  let n := Ascii.nat_of_ascii c in
  if (65 <=? n)%nat && (n <=? 90)%nat then Ascii.ascii_of_nat (n + 32)
  else c.

Fixpoint lower (s : string) : string :=
  match s with
  | EmptyString => EmptyString
  | String c s' => String (ascii_lower c) (lower s')
  end.

Module FredApp.
(** app/client/fred_macro_data_client.py *)

(** [_get_fred_series_value]: the NaN-dropped series, [None] when it is
    empty or the fetch raised. *)
Definition get_fred_series_value (fred : Fred) (series_id : string)
    (start_date end_date : Z) : option Series :=
  match fred series_id start_date end_date with
  | FredError => None
  | FredOk data =>
      let result := dropna data in
      match result with [] => None | _ => Some result end
  end.

(** The loop shared by [get_leading_indicators], [get_consumer_indices]
    and [get_financial_condition_indices]:
    [if value is not None: values[key] = value if not value.empty else None]
    [else: fetch_errors.append(key)]. *)
Definition group_values (fred : Fred) (series_map : list (string * string))
    (start_date end_date : Z) : Dict (option PyObj) :=
  fold_left
    (fun values '(key, series_id) =>
       match get_fred_series_value fred series_id start_date end_date with
       | Some value =>
           dict_set key
             (match value with [] => None | _ => Some (PSeries value) end)
             values
       | None => values
       end)
    series_map [].

Definition leading_series_map : list (string * string) :=
  [("leading_index_us", "USALOLITOAASTSAM"); ("leading_index_de", "BBKMLEIX")]%string.

Definition consumer_series_map : list (string * string) :=
  [("consumer_credit", "TOTALSL"); ("consumer_sentiment", "UMCSENT");
   ("disposable_income", "DSPIC96")]%string.

Definition financial_series_map : list (string * string) :=
  [("national_financial_conditions", "NFCI");
   ("adjusted_financial_conditions", "ANFCI")]%string.

Definition get_leading_indicators fred start_date end_date :=
  group_values fred leading_series_map start_date end_date.

Definition get_consumer_indices fred start_date end_date :=
  group_values fred consumer_series_map start_date end_date.

Definition get_financial_condition_indices fred start_date end_date :=
  group_values fred financial_series_map start_date end_date.

Definition treasury_series_ids : list string :=
  ["DGS3MO"; "DGS2"; "DGS10"]%string.

(** [get_treasury_yields_and_spreads] *)
Definition get_treasury_yields_and_spreads (fred : Fred)
    (start_date end_date : Z) : Dict (option PyObj) :=
  let series_data : Dict (option Series) :=
    fold_left
      (fun sd series_id =>
         match get_fred_series_value fred series_id start_date end_date with
         | Some value =>
             dict_set (lower series_id)
               (match value with [] => None | _ => Some value end) sd
         | None => sd
         end)
      treasury_series_ids [] in
  let dgs10_series := dict_get "dgs10" series_data in
  let dgs2_series := dict_get "dgs2" series_data in
  let dgs3mo_series := dict_get "dgs3mo" series_data in
  let spread_10y_2y :=
    match dgs10_series, dgs2_series with
    | Some a, Some b => Some (spread a b)
    | _, _ => None
    end in
  let spread_10y_3m :=
    match dgs10_series, dgs3mo_series with
    | Some a, Some b => Some (spread a b)
    | _, _ => None
    end in
  [("dgs3mo", option_map PSeries dgs3mo_series);
   ("dgs2", option_map PSeries dgs2_series);
   ("dgs10", option_map PSeries dgs10_series);
   ("spread_10y_2y", option_map PSeries spread_10y_2y);
   ("spread_10y_3m", option_map PSeries spread_10y_3m)]%string.

(** The methods [FredMacroDataClient] (app/) defines. *)
Definition method_names : list string :=
  ["__init__"; "_fetch_fred_series"; "_get_fred_series_value";
   "get_leading_indicators"; "get_treasury_yields_and_spreads";
   "get_consumer_indices"; "get_financial_condition_indices"]%string.

End FredApp.

Module FredLatest.
(** src/client/fred_macro_data_client.py *)

(** [_get_latest_fred_series_value]:
    [data.dropna().iloc[-1] if not data.dropna().empty else None]. *)
Definition get_latest_fred_series_value (fred : Fred) (series_id : string)
    (start_date end_date : Z) : option flt :=
  match fred series_id start_date end_date with
  | FredError => None
  | FredOk data =>
      match last_opt (dropna data) with
      | Some (_, last_value) => Some last_value
      | None => None
      end
  end.

(** [get_leading_indicators]: [latest_values[key] = value] for every key. *)
Definition get_leading_indicators (fred : Fred) (start_date end_date : Z)
    : Dict (option PyObj) :=
  fold_left
    (fun latest_values '(key, series_id) =>
       dict_set key
         (option_map PFloat
            (get_latest_fred_series_value fred series_id start_date end_date))
         latest_values)
    FredApp.leading_series_map [].

(** [get_treasury_yields_and_spreads] (src/ client): the latest value of
    each yield under [series_id.lower()], then
    [(dgs10 - dgs2) if dgs10 is not None and dgs2 is not None else None]
    and the same for 10Y-3M. *)
Definition get_treasury_yields_and_spreads (fred : Fred) (start_date end_date : Z)
    : Dict (option PyObj) :=
  let latest_data : Dict (option flt) :=
    fold_left
      (fun latest_data series_id =>
         dict_set (lower series_id)
           (get_latest_fred_series_value fred series_id start_date end_date)
           latest_data)
      FredApp.treasury_series_ids [] in
  let dgs10 := dict_get "dgs10" latest_data in
  let dgs2 := dict_get "dgs2" latest_data in
  let dgs3mo := dict_get "dgs3mo" latest_data in
  let spread_10y_2y :=
    match dgs10, dgs2 with Some a, Some b => Some (fsub a b) | _, _ => None end in
  let spread_10y_3m :=
    match dgs10, dgs3mo with Some a, Some b => Some (fsub a b) | _, _ => None end in
  [("dgs3mo", option_map PFloat dgs3mo);
   ("dgs2", option_map PFloat dgs2);
   ("dgs10", option_map PFloat dgs10);
   ("spread_10y_2y", option_map PFloat spread_10y_2y);
   ("spread_10y_3m", option_map PFloat spread_10y_3m)]%string.

End FredLatest.

Module TradingEconomics.
(** src/client/trading_economics_client.py *)

(** The DataFrame built from the JSON answer: whether it has a ['Value']
    column, and that column indexed by ['DateTime'] in answer order. *)
Inductive TEResp : Type :=
| TEOk (has_value_column : bool) (data : Series)
| TEError.

(** [_get_latest_indicator_value] *)
Definition get_latest_indicator_value (resp : TEResp) : option flt :=
  match resp with
  | TEError => None
  | TEOk _ [] => None
  | TEOk false _ => None
  | TEOk true data =>
      match last_opt (dropna data) with
      | Some (_, last_value) => Some last_value
      | None => None
      end
  end.

(** The answer of the API for a (country, indicator, start, end) request. *)
Definition TEApi := string -> string -> Z -> Z -> TEResp.

Definition indicators_map : list (string * string) :=
  [("manufacturing_pmi", "ISM Manufacturing PMI");
   ("services_pmi", "ISM Services PMI");
   ("composite_pmi", "Composite PMI")]%string.

(** [get_pmi_indicators]: [latest_values[key] = value] for every key, with
    [country = 'United States']. *)
Definition get_pmi_indicators (te : TEApi) (start_date end_date : Z)
    : Dict (option PyObj) :=
  fold_left
    (fun latest_values '(key, indicator) =>
       dict_set key
         (option_map PFloat
            (get_latest_indicator_value (te "United States"%string indicator start_date end_date)))
         latest_values)
    indicators_map [].

End TradingEconomics.

Module Yahoo.
(** src/client/yahoo_finance_client.py *)

(** The ['Close'] column of [ticker.history(start, end)], or an error. *)
Inductive YahooResp : Type :=
| YahooOk (close : Series)
| YahooError.

Definition YahooApi := string -> Z -> Z -> YahooResp.

(** [_get_latest_price]: [data['Close'].iloc[-1]], no NaN dropping. *)
Definition get_latest_price (yahoo : YahooApi) (symbol : string)
    (start_date end_date : Z) : option flt :=
  match yahoo symbol start_date end_date with
  | YahooError => None
  | YahooOk close =>
      match last_opt close with
      | Some (_, last_price) => Some last_price
      | None => None
      end
  end.

Definition SYMBOLS : list (string * string) :=
  [("crude_oil", "CL=F"); ("gold", "GC=F")]%string.

(** [get_commodity_prices] *)
Definition get_commodity_prices (yahoo : YahooApi) (start_date end_date : Z)
    : Dict (option PyObj) :=
  fold_left
    (fun latest_prices '(commodity, symbol) =>
       dict_set commodity
         (option_map PFloat (get_latest_price yahoo symbol start_date end_date))
         latest_prices)
    SYMBOLS [].

(** The methods [YahooFinanceClient] defines. *)
Definition method_names : list string :=
  ["__init__"; "_fetch_commodity_data"; "_get_latest_price";
   "get_commodity_prices"]%string.

End Yahoo.

(* ------------------------------------------------------------------ *)
(** ** MacroDataService (app/service/macro_data_service.py) *)

Module Service.

(** The upsert step every save routine runs for one data point:
    [existing_record = self.repo.find_by_type_and_date(type, date)];
    [if existing_record: self.repo.delete(existing_record)];
    [self.repo.create(type=..., value=float(value), date_time=date, ...)].
    The argument [float(value)] is evaluated when [create] is called, after
    the delete. *)
Definition upsert (indicator_type indicator_name : string) (value : PyObj)
    (date : Z) (is_leading_indicator : bool) (region : string) : M unit :=
  existing_record <- Repo.find_by_type_and_date indicator_type date ;;
  (match existing_record with
   | Some r => Repo.delete r ;;; ret tt
   | None => ret tt
   end) ;;;
  v <- py_float value ;;
  Repo.create indicator_type indicator_name v date is_leading_indicator region ;;;
  ret tt.

(** The loop of the "latest" save routines ([_save_treasury_data_to_db],
    [_save_consumer_indices_to_db], [_save_financial_condition_indices_to_db],
    [_save_pmi_indicators_to_db], [_save_commodity_prices_to_db]):
    [for data_key, (indicator_type, indicator_name) in mapping.items():]
    [value = data.get(data_key); if value is not None: upsert at current_date]. *)
Fixpoint save_group (mapping : list (string * (string * string)))
    (data : Dict (option PyObj)) (current_date : Z) : M unit :=
  match mapping with
  | [] => ret tt
  | (data_key, (indicator_type, indicator_name)) :: mapping' =>
      match dict_get data_key data with
      | Some value =>
          upsert indicator_type indicator_name value current_date false "US" ;;;
          save_group mapping' data current_date
      | None => save_group mapping' data current_date
      end
  end.

Definition treasury_indicators : list (string * (string * string)) :=
  [("dgs3mo", ("DGS3MO", "TREASURY_3M_YIELD"));
   ("dgs2", ("DGS2", "TREASURY_2Y_YIELD"));
   ("dgs10", ("DGS10", "TREASURY_10Y_YIELD"));
   ("spread_10y_2y", ("SPREAD_10Y_2Y", "TREASURY_SPREAD_10Y_2Y"));
   ("spread_10y_3m", ("SPREAD_10Y_3M", "TREASURY_SPREAD_10Y_3M"))]%string.

Definition consumer_indicators : list (string * (string * string)) :=
  [("consumer_credit", ("TOTALSL", "CONSUMER_CREDIT"));
   ("consumer_sentiment", ("UMCSENT", "CONSUMER_SENTIMENT"));
   ("disposable_income", ("DSPIC96", "DISPOSABLE_INCOME"))]%string.

Definition financial_indicators : list (string * (string * string)) :=
  [("national_financial_conditions", ("NFCI", "NATIONAL_FINANCIAL_CONDITIONS"));
   ("adjusted_financial_conditions", ("ANFCI", "ADJUSTED_FINANCIAL_CONDITIONS"))]%string.

Definition pmi_indicators : list (string * (string * string)) :=
  [("manufacturing_pmi", ("ISM_MAN_PMI", "MANUFACTURING_PMI"));
   ("services_pmi", ("ISM_SERV_PMI", "SERVICES_PMI"));
   ("composite_pmi", ("COMP_PMI", "COMPOSITE_PMI"))]%string.

Definition commodity_indicators : list (string * (string * string)) :=
  [("crude_oil", ("CRUDE_OIL_FUT", "CRUDE_OIL_FUTURES"));
   ("gold", ("GOLD_FUT", "GOLD_FUTURES"))]%string.

(** [current_date = datetime.now()] is read once per save routine. *)
Definition save_treasury_data_to_db data now := save_group treasury_indicators data now.
Definition save_consumer_indices_to_db data now := save_group consumer_indicators data now.
Definition save_financial_condition_indices_to_db data now :=
  save_group financial_indicators data now.
Definition save_pmi_indicators_to_db data now := save_group pmi_indicators data now.
Definition save_commodity_prices_to_db data now := save_group commodity_indicators data now.

(** [for date, value in series.items(): if pd.notna(value): upsert(...)]
    with [date_time=date], [is_leading_indicator=True], [region="US"]. *)
Fixpoint save_series_points (indicator_type indicator_name : string)
    (s : Series) : M unit :=
  match s with
  | [] => ret tt
  | (date, value) :: s' =>
      (if notna value
       then upsert indicator_type indicator_name (PFloat value) date true "US"
       else ret tt) ;;;
      save_series_points indicator_type indicator_name s'
  end.

(** One branch of [_save_leading_indicators_to_db]:
    [if key in data and data[key] is not None: for ... in data[key].items()].
    A float has no [.items()]. *)
Definition save_leading_branch (key indicator_type indicator_name : string)
    (data : Dict (option PyObj)) : M unit :=
  match dict_get key data with
  | Some (PSeries s) => save_series_points indicator_type indicator_name s
  | Some (PFloat _) => raise (AttributeError "items")
  | None => ret tt
  end.

(** [_save_leading_indicators_to_db] *)
Definition save_leading_indicators_to_db (data : Dict (option PyObj)) : M unit :=
  save_leading_branch "leading_index_us" "USALOLITOAASTSAM" "US_LEADING_INDEX" data ;;;
  save_leading_branch "leading_index_de" "BBKMLEIX" "BBK_LEADING_INDEX" data.

(** The [fetch_and_store_*_by_date_range] methods: fetch, save, [return True];
    an exception of the save routine is re-raised. *)
Definition fetch_and_store_leading_indicators_by_date_range (fred : Fred)
    (start_date end_date : Z) : M bool :=
  save_leading_indicators_to_db
    (FredApp.get_leading_indicators fred start_date end_date) ;;;
  ret true.

Definition fetch_and_store_treasury_data_by_date_range (fred : Fred)
    (start_date end_date now : Z) : M bool :=
  save_treasury_data_to_db
    (FredApp.get_treasury_yields_and_spreads fred start_date end_date) now ;;;
  ret true.

Definition fetch_and_store_consumer_indices_by_date_range (fred : Fred)
    (start_date end_date now : Z) : M bool :=
  save_consumer_indices_to_db
    (FredApp.get_consumer_indices fred start_date end_date) now ;;;
  ret true.

Definition fetch_and_store_financial_condition_indices_by_date_range
    (fred : Fred) (start_date end_date now : Z) : M bool :=
  save_financial_condition_indices_to_db
    (FredApp.get_financial_condition_indices fred start_date end_date) now ;;;
  ret true.

Definition fetch_and_store_commodity_prices_by_date_range
    (yahoo : Yahoo.YahooApi) (start_date end_date now : Z) : M bool :=
  save_commodity_prices_to_db
    (Yahoo.get_commodity_prices yahoo start_date end_date) now ;;;
  ret true.

(** [fetch_and_store_pmi_indicators] calls
    [self.fetch_and_store_pmi_indicators_by_date_range], which the class
    does not define. *)
Definition fetch_and_store_pmi_indicators : M bool :=
  raise (AttributeError "fetch_and_store_pmi_indicators_by_date_range").

(** The value of the read accessors' dict: the record's details. *)
Definition indicator_detail (r : Row) :=
  (row_type r, row_name r, row_value r, row_date_time r,
   row_is_leading_indicator r, row_region r).

(** [get_all_us_indicators] / [get_all_china_indicators]: the dict
    comprehension [{indicator.type: {...} for indicator in indicators}]
    over [self.repo.find_by_region_date_range(...)]. *)
Definition get_all_indicators (region : string) (start_date end_date : Z)
    : M (Dict (string * string * flt * Z * bool * string)) :=
  match Repo.find_by_region_date_range with
  | None => raise (AttributeError "find_by_region_date_range")
  | Some find_range =>
      indicators <- find_range start_date end_date region ;;
      ret (fold_left (fun d r => dict_set (row_type r) (indicator_detail r) d)
             indicators [])
  end.

Definition get_all_us_indicators := get_all_indicators "US".
Definition get_all_china_indicators := get_all_indicators "CHINA".

(** The orchestration calls the controller makes, with the provider
    answers they receive and the [datetime.now()] of the call. *)
Inductive Call : Type :=
| CallLeading (fred : Fred) (start_date end_date : Z)
| CallTreasury (fred : Fred) (start_date end_date now : Z)
| CallConsumer (fred : Fred) (start_date end_date now : Z)
| CallFinancial (fred : Fred) (start_date end_date now : Z)
| CallPmi
| CallCommodity (yahoo : Yahoo.YahooApi) (start_date end_date now : Z).

Definition run_call (c : Call) : M bool :=
  match c with
  | CallLeading f st en => fetch_and_store_leading_indicators_by_date_range f st en
  | CallTreasury f st en now => fetch_and_store_treasury_data_by_date_range f st en now
  | CallConsumer f st en now => fetch_and_store_consumer_indices_by_date_range f st en now
  | CallFinancial f st en now =>
      fetch_and_store_financial_condition_indices_by_date_range f st en now
  | CallPmi => fetch_and_store_pmi_indicators
  | CallCommodity y st en now => fetch_and_store_commodity_prices_by_date_range y st en now
  end.

(** A sequence of requests: each one runs on the store the previous one
    left, whatever its outcome. *)
Fixpoint run_calls (cs : list Call) (s : Store) : Store :=
  match cs with
  | [] => s
  | c :: cs' => run_calls cs' (snd (run_call c s))
  end.

Definition empty_store (clock : Z) : Store := mkStore [] 1 clock.

(** A method call [client.name(...)]: the attribute is looked up on the
    client object first; a name the class does not define raises
    [AttributeError]. *)
Definition lookup_method (methods : list string) (name : string) : M unit :=
  if existsb (String.eqb name) methods then ret tt
  else raise (AttributeError name).

(** The loop of [fetch_and_store_leading_index] / [fetch_and_store_bbk_index]:
    [for _, row in data.iterrows(): value = float(row[col])], then
    find/delete/create at [row['date']], leading, region "US". *)
Fixpoint save_frame_rows (indicator_type indicator_name : string)
    (frame : Series) : M unit :=
  match frame with
  | [] => ret tt
  | (date, value) :: frame' =>
      upsert indicator_type indicator_name (PFloat value) date true "US" ;;;
      save_frame_rows indicator_type indicator_name frame'
  end.

(** [data = self.fred_client.<getter>(start_date, end_date)];
    [if data is not None and not data.empty: ...]; [return True].
    [data] is the frame the client method returns: its rows as
    ([date], column value). *)
Definition store_frame (methods : list string) (getter indicator_type indicator_name : string)
    (data : option Series) : M bool :=
  lookup_method methods getter ;;;
  (match data with
   | Some frame => save_frame_rows indicator_type indicator_name frame
   | None => ret tt
   end) ;;;
  ret true.

(** [data = client.<getter>(start_date, end_date)]; [if data is not None:]
    find/delete/create with [value=float(data)] at [date_time=end_date];
    [return True]. *)
Definition store_latest (methods : list string) (getter indicator_type indicator_name : string)
    (data : option PyObj) (end_date : Z) : M bool :=
  lookup_method methods getter ;;;
  (match data with
   | Some value => upsert indicator_type indicator_name value end_date false "US"
   | None => ret tt
   end) ;;;
  ret true.

Definition fetch_and_store_leading_index (data : option Series) : M bool :=
  store_frame FredApp.method_names "get_leading_index" "USALOLITOAASTSAM"
    "US_LEADING_INDEX" data.

Definition fetch_and_store_bbk_index (data : option Series) : M bool :=
  store_frame FredApp.method_names "get_bbk_index" "BBKMLEIX" "BBK_LEADING_INDEX" data.

Definition fetch_and_store_treasury_yield_3m (data : option PyObj) (end_date : Z) : M bool :=
  store_latest FredApp.method_names "get_treasury_yield_3m" "DGS3MO"
    "TREASURY_3M_YIELD" data end_date.

Definition fetch_and_store_treasury_yield_2y (data : option PyObj) (end_date : Z) : M bool :=
  store_latest FredApp.method_names "get_treasury_yield_2y" "DGS2"
    "TREASURY_2Y_YIELD" data end_date.

Definition fetch_and_store_treasury_yield_10y (data : option PyObj) (end_date : Z) : M bool :=
  store_latest FredApp.method_names "get_treasury_yield_10y" "DGS10"
    "TREASURY_10Y_YIELD" data end_date.

Definition fetch_and_store_consumer_credit (data : option PyObj) (end_date : Z) : M bool :=
  store_latest FredApp.method_names "get_consumer_credit" "TOTALSL"
    "CONSUMER_CREDIT" data end_date.

Definition fetch_and_store_consumer_sentiment (data : option PyObj) (end_date : Z) : M bool :=
  store_latest FredApp.method_names "get_consumer_sentiment" "UMCSENT"
    "CONSUMER_SENTIMENT" data end_date.

Definition fetch_and_store_disposable_income (data : option PyObj) (end_date : Z) : M bool :=
  store_latest FredApp.method_names "get_disposable_income" "DSPIC96"
    "DISPOSABLE_INCOME" data end_date.

Definition fetch_and_store_crude_oil (data : option PyObj) (end_date : Z) : M bool :=
  store_latest Yahoo.method_names "get_crude_oil_price" "CRUDE_OIL_FUT"
    "CRUDE_OIL_FUTURES" data end_date.

Definition fetch_and_store_gold (data : option PyObj) (end_date : Z) : M bool :=
  store_latest Yahoo.method_names "get_gold_price" "GOLD_FUT" "GOLD_FUTURES" data end_date.

(** The methods [MacroDataService] defines (the [fetch_and_store_*] of a
    family with and without [_by_date_range], the save routines, the read
    accessors and the per-series methods). *)
Definition method_names : list string :=
  ["__init__"; "get_all_us_indicators"; "get_all_china_indicators";
   "fetch_and_store_leading_indicators"; "_save_leading_indicators_to_db";
   "fetch_and_store_treasury_data"; "_save_treasury_data_to_db";
   "fetch_and_store_consumer_indices"; "_save_consumer_indices_to_db";
   "fetch_and_store_financial_condition_indices";
   "_save_financial_condition_indices_to_db";
   "fetch_and_store_pmi_indicators"; "_save_pmi_indicators_to_db";
   "fetch_and_store_commodity_prices"; "_save_commodity_prices_to_db";
   "fetch_and_store_leading_indicators_by_date_range";
   "fetch_and_store_treasury_data_by_date_range";
   "fetch_and_store_consumer_indices_by_date_range";
   "fetch_and_store_financial_condition_indices_by_date_range";
   "fetch_and_store_commodity_prices_by_date_range";
   "fetch_and_store_leading_index"; "fetch_and_store_bbk_index";
   "fetch_and_store_treasury_yield_3m"; "fetch_and_store_treasury_yield_2y";
   "fetch_and_store_treasury_yield_10y"; "fetch_and_store_consumer_credit";
   "fetch_and_store_consumer_sentiment"; "fetch_and_store_disposable_income";
   "fetch_and_store_crude_oil"; "fetch_and_store_gold"]%string.

(** [self.fetch_and_store_pmi_indicators_by_date_range]: an attribute the
    class does not define (it is not among [method_names]); evaluating it
    raises [AttributeError]. *)
Definition fetch_and_store_pmi_indicators_by_date_range : M bool :=
  raise (AttributeError "fetch_and_store_pmi_indicators_by_date_range").

End Service.

(* ------------------------------------------------------------------ *)
(** ** The indicators router (app/controller/indicator_controller.py) *)

Module Controller.

(** The answer of an endpoint: its JSON body, or [HTTPException] with a
    status code and the exception whose [str] is the detail. *)
Inductive HttpResult (A : Type) : Type :=
| HttpOk (body : A)
| HttpError (status_code : Z) (detail : PyExc).
Arguments HttpOk {A} body.
Arguments HttpError {A} status_code detail.

(** [try: ... except Exception as e: raise HTTPException(status_code=500,
    detail=str(e))]; each request builds a new [MacroDataService()] over
    the same database. *)
Definition handle {A B} (c : M A) (respond : A -> B) (s : Store)
    : HttpResult B * Store :=
  match c s with
  | (Ok a, s') => (HttpOk (respond a), s')
  | (Raise e, s') => (HttpError 500 e, s')
  end.

Definition IndicatorsDict := Dict (string * string * flt * Z * bool * string).

(** The body [{"indicators": ..., "status": "success"}], with
    ["period"] (the two dates) for the China endpoint. *)
Record IndicatorsResponse : Type := mkIndicatorsResponse {
  resp_indicators : IndicatorsDict;
  resp_status : string;
  resp_period : option (Z * Z)
}.

(** [GET /api/indicators/us] *)
Definition get_us_economic_indicators (start_date end_date : Z) :=
  handle (Service.get_all_us_indicators start_date end_date)
    (fun indicators => mkIndicatorsResponse indicators "success" None).

(** [GET /api/indicators/china] *)
Definition get_china_economic_indicators (start_date end_date : Z) :=
  handle (Service.get_all_china_indicators start_date end_date)
    (fun indicators =>
       mkIndicatorsResponse indicators "success" (Some (start_date, end_date))).

(** The body [{"status": "success", "results": results}]. *)
Record AllResponse : Type := mkAllResponse {
  all_status : string;
  all_results : Dict bool
}.

(** [POST /api/indicators/fetch-store-all-macro-indices]: the dict display
    [results = {...}] evaluates its values in order; [now_c], [now_f],
    [now_t], [now_m] are the [datetime.now()] read by the consumer,
    financial, treasury and commodity save routines. *)
Definition fetch_and_store_all_macro_indices (fred : Fred) (yahoo : Yahoo.YahooApi)
    (start_date end_date now_c now_f now_t now_m : Z) :=
  handle
    (leading <- Service.fetch_and_store_leading_indicators_by_date_range
                  fred start_date end_date ;;
     consumer <- Service.fetch_and_store_consumer_indices_by_date_range
                   fred start_date end_date now_c ;;
     financial <- Service.fetch_and_store_financial_condition_indices_by_date_range
                    fred start_date end_date now_f ;;
     treasury <- Service.fetch_and_store_treasury_data_by_date_range
                   fred start_date end_date now_t ;;
     pmi <- Service.fetch_and_store_pmi_indicators_by_date_range ;;
     commodity <- Service.fetch_and_store_commodity_prices_by_date_range
                    yahoo start_date end_date now_m ;;
     ret [("leading_indicators", leading); ("consumer_indices", consumer);
          ("financial_condition_indices", financial); ("treasury_data", treasury);
          ("pmi_indicators", pmi); ("commodity_prices", commodity)]%string)
    (fun results => mkAllResponse "success" results).

End Controller.

(* ================================================================== *)
(** * Auxiliary notions and concrete inputs of the proofs *)

Definition dflt (o : option flt) : flt :=
  match o with Some v => v | None => NaN end.

(** What the joined index holds at [d], given the two sides. *)
Definition pair_at (oa ob : option flt) : option (flt * flt) :=
  match oa, ob with
  | None, None => None
  | _, _ => Some (dflt oa, dflt ob)
  end.

Fixpoint join_at (d : Z) (j : list (Z * (flt * flt))) : option (flt * flt) :=
  match j with
  | [] => None
  | (d', p) :: j' => if d =? d' then Some p else join_at d j'
  end.

(** Dates 2024-03-01, 2024-03-02, 2024-03-03 and two yield series. *)
Definition d1 : Z := midnight 19783.
Definition d2 : Z := midnight 19784.
Definition d3 : Z := midnight 19785.
Definition dgs10_ex : Series := [(d1, Fin 450); (d2, Fin 460); (d3, Fin 470)].
Definition dgs2_ex : Series := [(d1, Fin 410); (d2, Fin 420)].

(** Rows stored for the pair (type, calendar day of [t]). *)
Definition rows_for (ty : string) (t : Z) (s : Store) : list Row :=
  filter (fun r => String.eqb (row_type r) ty
                   && (day_of (row_date_time r) =? day_of t)) (rows s).

Definition count_day (ty : string) (t : Z) (s : Store) : nat :=
  List.length (rows_for ty t s).

(** Witness for C2: a store already holding one DGS10 row for 2024-03-01. *)
Definition store_one_dgs10 : Store :=
  mkStore [mkRow 7 "DGS10" "TREASURY_10Y_YIELD" (Fin 430) d1 false "US" 0] 8 0.

Definition row_0900 : Row :=
  mkRow 1 "DGS10" "TREASURY_10Y_YIELD" (Fin 450) (d1 + 9 * 3600000000) false "US" 0.
Definition row_1500 : Row :=
  mkRow 2 "DGS10" "TREASURY_10Y_YIELD" (Fin 455) (d1 + 15 * 3600000000) false "US" 0.

Definition fred_down : Fred := fun _ _ _ => FredError.

Definition fred_consumer : Fred :=
  fun series_id _ _ =>
    if String.eqb series_id "TOTALSL" then FredOk [(d1, Fin 500000); (d2, Fin 501000)]
    else if String.eqb series_id "DSPIC96" then FredOk [(d1, Fin 1700000); (d2, Fin 1701000)]
    else FredError.







(** [float(obj)] as a partial function. *)
Definition float_of (obj : PyObj) : option flt :=
  match obj with
  | PFloat f => Some f
  | PSeries [(_, v)] => Some v
  | PSeries _ => None
  end.

Definition all_ok (ok : Row -> Prop) (s : Store) : Prop :=
  forall r, In r (rows s) -> ok r.

Definition nan_free (s : Series) : Prop := forall d v, In (d, v) s -> notna v = true.

Definition row_notna (r : Row) : Prop := notna (row_value r) = true.

Definition row_us (r : Row) : Prop := row_region r = "US"%string.

(** A store holding the CRUDE_OIL_FUT row of 2024-03-03. *)
Definition store_crude_d3 : Store :=
  mkStore [mkRow 7 "CRUDE_OIL_FUT" "CRUDE_OIL_FUTURES" (Fin 7805) d3 false "US" 0] 8 0.

(** Yahoo answers for CL=F a close column whose last row is NaN (a
    window [2024-03-01, 2024-03-03): yfinance leaves out the end date). *)
Definition yahoo_nan_close : Yahoo.YahooApi :=
  fun symbol _ _ =>
    if String.eqb symbol "CL=F"
    then Yahoo.YahooOk [(d1, Fin 7812); (d2, NaN)]
    else Yahoo.YahooOk [(d1, Fin 208450); (d2, Fin 209120)].

Definition ids_below (s : Store) : Prop :=
  forall r, In r (rows s) -> row_id r < next_id s.





Definition mapping_types (m : list (string * (string * string))) : list string :=
  map (fun '(_, (ty, _)) => ty) m.


(** A table whose ids are distinct and lie below the autoincrement
    counter (what the primary key guarantees). *)
Definition wf (s : Store) : Prop :=
  ids_below s /\ NoDup (map row_id (rows s)).

(** [s'] is well formed and still holds every row of [s] whose type is not
    among [types]. *)
Definition keeps (types : list string) (s s' : Store) : Prop :=
  wf s' /\ forall x, In x (rows s) -> ~ In (row_type x) types -> In x (rows s').

(** The indicator types an orchestration call writes. *)
Definition call_types (c : Service.Call) : list string :=
  match c with
  | Service.CallLeading _ _ _ => ["USALOLITOAASTSAM"; "BBKMLEIX"]%string
  | Service.CallTreasury _ _ _ _ => mapping_types Service.treasury_indicators
  | Service.CallConsumer _ _ _ _ => mapping_types Service.consumer_indicators
  | Service.CallFinancial _ _ _ _ => mapping_types Service.financial_indicators
  | Service.CallPmi => []
  | Service.CallCommodity _ _ _ _ => mapping_types Service.commodity_indicators
  end.

(** The entry a grouped series method of the app/ FRED client should hold
    under [key]: the series of the mapped id when its fetch gives one, no
    entry otherwise. *)
Definition group_entry (fred : Fred) (series_map : list (string * string))
    (start_date end_date : Z) (key : string) : option (option PyObj) :=
  match find (fun p => String.eqb key (fst p)) series_map with
  | Some (_, series_id) =>
      option_map (fun v => Some (PSeries v))
        (FredApp.get_fred_series_value fred series_id start_date end_date)
  | None => None
  end.

(** Both legs present: the value computed from them. *)
Definition both {A B} (f : A -> A -> B) (oa ob : option A) : option B :=
  match oa, ob with Some a, Some b => Some (f a b) | _, _ => None end.

(** A dict none of whose float values is NaN. *)
Definition floats_notna (d : Dict (option PyObj)) : Prop :=
  forall k x, dict_lookup k d = Some (Some (PFloat x)) -> notna x = true.

(* ================================================================== *)
(** * Proofs *)

(** ** Alignment and spreads *)

Lemma align_join_cons_cons da x a' db y b' :
  align_join ((da, x) :: a') ((db, y) :: b') =
  if da <? db then (da, (x, NaN)) :: align_join a' ((db, y) :: b')
  else if db <? da then (db, (NaN, y)) :: align_join ((da, x) :: a') b'
  else (da, (x, y)) :: align_join a' b'.
Proof. reflexivity. Qed.

Lemma align_join_nil_r da x a' :
  align_join ((da, x) :: a') [] =
  map (fun '(d, x0) => (d, (x0, NaN))) ((da, x) :: a').
Proof. reflexivity. Qed.

Lemma join_at_left_only d (a : Series) :
  join_at d (map (fun '(d0, x0) => (d0, (x0, NaN))) a) =
  pair_at (series_at d a) None.
Proof.
  induction a as [|[d0 x0] a' IH]; simpl; [reflexivity|].
  destruct (d =? d0); [reflexivity | exact IH].
Qed.

Lemma join_at_right_only d (b : Series) :
  join_at d (map (fun '(d0, y) => (d0, (NaN, y))) b) =
  pair_at None (series_at d b).
Proof.
  induction b as [|[d0 y] b' IH]; simpl; [reflexivity|].
  destruct (d =? d0); [reflexivity | exact IH].
Qed.

Lemma increasing_tail d0 v (s : Series) :
  increasing ((d0, v) :: s) = true -> increasing s = true.
Proof. simpl. intros H. apply andb_prop in H. tauto. Qed.

(** A date before the head of an increasing series is not in its index. *)
Lemma series_at_below d d0 v (s : Series) :
  increasing ((d0, v) :: s) = true -> d < d0 -> series_at d ((d0, v) :: s) = None.
Proof.
  revert d0 v. induction s as [|[d1 v1] s' IH]; intros d0 v Hinc Hlt; simpl.
  - destruct (Z.eqb_spec d d0); [lia | reflexivity].
  - destruct (Z.eqb_spec d d0); [lia|].
    simpl in Hinc. apply andb_prop in Hinc as [H1 H2].
    apply andb_prop in H1 as [H01 _]. apply Z.ltb_lt in H01.
    apply (IH d1 v1); [exact H2 | lia].
Qed.

(** The outer join holds, at each date, what the two inputs hold there. *)
Lemma join_at_align_join (a b : Series) :
  increasing a = true -> increasing b = true ->
  forall d, join_at d (align_join a b) = pair_at (series_at d a) (series_at d b).
Proof.
  revert b. induction a as [|[da x] a' IHa]; intros b Ha Hb d.
  - apply join_at_right_only.
  - induction b as [|[db y] b' IHb].
    + rewrite align_join_nil_r, join_at_left_only.
      simpl. destruct (d =? da); reflexivity.
    + rewrite align_join_cons_cons.
      pose proof (increasing_tail _ _ _ Ha) as Ha'.
      pose proof (increasing_tail _ _ _ Hb) as Hb'.
      destruct (Z.ltb_spec da db) as [Hab|Hab].
      * cbn [join_at]. destruct (Z.eqb_spec d da) as [->|Hne].
        -- rewrite (series_at_below da db y b' Hb Hab).
           simpl. rewrite Z.eqb_refl. reflexivity.
        -- rewrite (IHa _ Ha' Hb d). simpl.
           apply Z.eqb_neq in Hne. rewrite Hne. reflexivity.
      * destruct (Z.ltb_spec db da) as [Hba|Hba].
        -- cbn [join_at]. destruct (Z.eqb_spec d db) as [->|Hne].
           ++ rewrite (series_at_below db da x a' Ha Hba).
              simpl. rewrite Z.eqb_refl. reflexivity.
           ++ rewrite (IHb Hb'). simpl.
              apply Z.eqb_neq in Hne. rewrite Hne. reflexivity.
        -- assert (db = da) as -> by lia.
           cbn [join_at]. destruct (Z.eqb_spec d da) as [->|Hne].
           ++ simpl. rewrite Z.eqb_refl. reflexivity.
           ++ rewrite (IHa _ Ha' Hb' d). simpl.
              apply Z.eqb_neq in Hne. rewrite Hne. reflexivity.
Qed.

Lemma spread_as_map (a b : Series) :
  spread a b = map (fun '(d, (x, y)) => (d, fsub x y)) (align_join a b).
Proof.
  unfold spread, series_align, series_sub.
  induction (align_join a b) as [|[d [x y]] j IH]; simpl; [reflexivity|].
  f_equal. exact IH.
Qed.

Lemma series_at_spread (a b : Series) d :
  increasing a = true -> increasing b = true ->
  series_at d (spread a b) =
  option_map (fun '(x, y) => fsub x y) (pair_at (series_at d a) (series_at d b)).
Proof.
  intros Ha Hb. rewrite <- (join_at_align_join a b Ha Hb d), spread_as_map.
  induction (align_join a b) as [|[d' [x y]] j IH]; simpl; [reflexivity|].
  destruct (d =? d'); [reflexivity | exact IH].
Qed.

(** C1, counterexample: DGS10 has dates {d1, d2, d3}, DGS2 has {d1, d2};
    the spread computed by [get_treasury_yields_and_spreads] has an entry
    (NaN) at d3, where DGS2 has none. *)
Lemma C1_spread_keeps_one_sided_date :
  ~ (forall d, series_at d (spread dgs10_ex dgs2_ex) <> None <->
               (series_at d dgs10_ex <> None /\ series_at d dgs2_ex <> None)).
Proof.
  intros H. destruct (H d3) as [H1 _].
  assert (Hs : series_at d3 (spread dgs10_ex dgs2_ex) = Some NaN)
    by reflexivity.
  assert (Hb : series_at d3 dgs2_ex = None) by reflexivity.
  rewrite Hs in H1. destruct (H1 ltac:(discriminate)) as [_ H2].
  exact (H2 Hb).
Qed.

(** C1 (amended): for increasing inputs, the spread series has an entry at
    every date of either input (outer alignment), and it holds a number
    (the difference) exactly at the dates where both inputs hold a number;
    a date present in only one input carries NaN. *)
Theorem C1_spread_outer_alignment (a b : Series) :
  increasing a = true -> increasing b = true ->
  forall d,
    (series_at d (spread a b) <> None <->
     series_at d a <> None \/ series_at d b <> None) /\
    (forall v, series_at d (spread a b) = Some (Fin v) <->
       exists x y, series_at d a = Some (Fin x) /\
                   series_at d b = Some (Fin y) /\ v = x - y).
Proof.
  intros Ha Hb d. rewrite (series_at_spread a b d Ha Hb).
  destruct (series_at d a) as [[x|]|], (series_at d b) as [[y|]|];
    simpl; split; try split; intros;
    repeat match goal with
    | H : exists _, _ |- _ => destruct H as (? & ? & ? & ? & ?)
    | H : Some _ = Some _ |- _ => injection H as H; subst
    end;
    try discriminate; try congruence; eauto; try tauto;
    try (left; discriminate); right; discriminate.
Qed.

(** Witness for C1: the theorem at the example series. *)
Lemma C1_spread_outer_alignment_witness :
  increasing dgs10_ex = true /\ increasing dgs2_ex = true /\
  (series_at d3 (spread dgs10_ex dgs2_ex) <> None <->
   series_at d3 dgs10_ex <> None \/ series_at d3 dgs2_ex <> None).
Proof.
  split; [reflexivity|]. split; [reflexivity|].
  exact (proj1 (C1_spread_outer_alignment dgs10_ex dgs2_ex eq_refl eq_refl d3)).
Defined.

(** ** Calendar-day lookup and the upsert protocol *)

Lemma us_per_day_pos : 0 < us_per_day.
Proof. unfold us_per_day. lia. Qed.

(** [combine(d, min.time()) <= t <= combine(d, max.time())] is "t falls on
    day d". *)
Lemma within_day_iff (t d : Z) :
  midnight d <= t <= midnight d + us_per_day - 1 <-> day_of t = d.
Proof.
  unfold midnight, day_of. pose proof us_per_day_pos as HU. split.
  - intros [Hlo Hhi]. symmetry.
    apply (Z.div_unique_pos t us_per_day d (t - d * us_per_day)); lia.
  - intros <-.
    pose proof (Z.mul_div_le t us_per_day HU).
    pose proof (Z.mod_pos_bound t us_per_day HU).
    pose proof (Z.div_mod t us_per_day ltac:(lia)). lia.
Qed.

Lemma day_filter_day ty t r :
  Repo.day_filter ty t r =
  String.eqb (row_type r) ty && (day_of (row_date_time r) =? day_of t).
Proof.
  unfold Repo.day_filter.
  destruct (String.eqb (row_type r) ty); simpl; [|reflexivity].
  destruct (Z.eqb_spec (day_of (row_date_time r)) (day_of t)) as [H|H].
  - apply within_day_iff in H. apply andb_true_intro.
    split; apply Z.leb_le; lia.
  - destruct (Z.leb_spec (midnight (day_of t)) (row_date_time r));
      destruct (Z.leb_spec (row_date_time r)
                  (midnight (day_of t) + us_per_day - 1)); try reflexivity.
    exfalso. apply H. apply within_day_iff. lia.
Qed.

Lemma filter_all_false {A} (f : A -> bool) (l : list A) :
  (forall x, In x l -> f x = false) -> filter f l = [].
Proof.
  induction l as [|x l IH]; simpl; intros H; [reflexivity|].
  rewrite (H x (or_introl eq_refl)). apply IH. intros y Hy. apply H. now right.
Qed.

Lemma two_distinct_length {A} (x y : A) (l : list A) :
  In x l -> In y l -> x <> y -> (2 <= List.length l)%nat.
Proof.
  induction l as [|z l IH]; simpl; [tauto|].
  intros [<-|Hx] [<-|Hy] Hne; try congruence.
  - destruct l; simpl in *; [tauto | lia].
  - destruct l; simpl in *; [tauto | lia].
  - specialize (IH Hx Hy Hne). lia.
Qed.

Lemma create_ok ty name v t lead region s :
  notna v = true ->
  Repo.create ty name v t lead region s =
  (Ok (mkRow (next_id s) ty name v t lead region (utcnow s)),
   mkStore (rows s ++ [mkRow (next_id s) ty name v t lead region (utcnow s)])
     (next_id s + 1) (utcnow s)).
Proof. intros Hv. unfold Repo.create. rewrite Hv. reflexivity. Qed.

Lemma create_nan ty name v t lead region s :
  notna v = false -> Repo.create ty name v t lead region s = (Raise ProgrammingError, s).
Proof. intros Hv. unfold Repo.create. rewrite Hv. reflexivity. Qed.

Lemma upsert_scalar_unfold ty name v t lead region s :
  notna v = true ->
  Service.upsert ty name (PFloat v) t lead region s =
  let s' := match find (Repo.day_filter ty t) (rows s) with
            | Some r => snd (Repo.delete r s)
            | None => s
            end in
  (Ok tt, snd (Repo.create ty name v t lead region s')).
Proof.
  intros Hv. unfold Service.upsert, bind, Repo.find_by_type_and_date.
  destruct (find (Repo.day_filter ty t) (rows s)); simpl;
    rewrite create_ok by exact Hv; reflexivity.
Qed.


(** Deleting the row [find] returns for a pair holding at most one row
    leaves none for the pair. *)
Lemma clear_day_count ty t s :
  (count_day ty t s <= 1)%nat ->
  count_day ty t (match find (Repo.day_filter ty t) (rows s) with
                  | Some r => snd (Repo.delete r s)
                  | None => s
                  end) = 0%nat.
Proof.
  intros Hle. unfold count_day, rows_for.
  destruct (find (Repo.day_filter ty t) (rows s)) as [r|] eqn:Hf.
  - apply find_some in Hf as [Hin Hr]. rewrite day_filter_day in Hr.
    simpl. rewrite filter_all_false; [reflexivity|].
    intros r' Hin'. apply filter_In in Hin' as [Hin' Hid].
    destruct (String.eqb (row_type r') ty
              && (day_of (row_date_time r') =? day_of t)) eqn:Hr'; [|reflexivity].
    exfalso. assert (r' <> r) as Hne.
    { intros ->. rewrite Z.eqb_refl in Hid. discriminate. }
    unfold count_day, rows_for in Hle.
    set (f := fun r0 : Row => String.eqb (row_type r0) ty
                              && (day_of (row_date_time r0) =? day_of t)) in *.
    pose proof (two_distinct_length r r' (filter f (rows s))
                  (proj2 (filter_In f r _) (conj Hin Hr))
                  (proj2 (filter_In f r' _) (conj Hin' Hr')) (not_eq_sym Hne)).
    lia.
  - rewrite filter_all_false; [reflexivity|]. intros r' Hin'.
    pose proof (find_none _ _ Hf r' Hin') as H. rewrite day_filter_day in H.
    exact H.
Qed.





(** ** Read accessors *)

(** C3 (code_bug): [MacroIndicatorRepository] defines no
    [find_by_region_date_range]; [get_all_us_indicators] therefore raises
    [AttributeError] for every window and every store, without touching the
    store, instead of returning the rows of the window. *)
Theorem C3_region_range_lookup_missing :
  ~ In "find_by_region_date_range"%string Repo.method_names /\
  forall start_date end_date s,
    Service.get_all_us_indicators start_date end_date s =
    (Raise (AttributeError "find_by_region_date_range"), s).
Proof.
  split.
  - simpl. intuition discriminate.
  - intros. reflexivity.
Qed.

(** ** Calendar-day lookup *)

(** C5, counterexample: two DGS10 rows on 2024-03-01 (09:00 and 15:00);
    the 15:00 row has the type and lies within the day, but
    [find_by_type_and_date("DGS10", 2024-03-01)] returns only the first. *)
Lemma C5_second_same_day_row_not_returned :
  ~ (forall r, In r [row_0900; row_1500] ->
       (fst (Repo.find_by_type_and_date "DGS10" d1
               (mkStore [row_0900; row_1500] 3 0)) = Ok (Some r) <->
        row_type r = "DGS10"%string /\
        midnight (day_of d1) <= row_date_time r <=
        midnight (day_of d1) + us_per_day - 1)).
Proof.
  intros H. destruct (H row_1500 (or_intror (or_introl eq_refl))) as [_ H2].
  assert (Hw : row_type row_1500 = "DGS10"%string /\
               midnight (day_of d1) <= row_date_time row_1500 <=
               midnight (day_of d1) + us_per_day - 1)
    by (vm_compute; split; [reflexivity | split; discriminate]).
  specialize (H2 Hw). vm_compute in H2. discriminate H2.
Qed.

(** C5 (amended): a row qualifies exactly when its type equals the argument
    and its date_time lies within [00:00:00, 23:59:59.999999] of the given
    date's calendar day, i.e. falls on that day; the lookup returns the
    first qualifying row and [None] exactly when no row qualifies, leaving
    the store unchanged. Scenario: a DGS10 row at 2024-03-01T09:00:00 is
    found for 2024-03-01 and not for 2024-03-02. *)
Theorem C5_find_by_calendar_day :
  (forall ty t r,
     Repo.day_filter ty t r = true <->
     row_type r = ty /\
     midnight (day_of t) <= row_date_time r <= midnight (day_of t) + us_per_day - 1) /\
  (forall ty t r,
     Repo.day_filter ty t r = true <->
     row_type r = ty /\ day_of (row_date_time r) = day_of t) /\
  (forall ty t s,
     snd (Repo.find_by_type_and_date ty t s) = s /\
     (forall r, fst (Repo.find_by_type_and_date ty t s) = Ok (Some r) ->
        In r (rows s) /\ Repo.day_filter ty t r = true /\
        exists pre post, rows s = pre ++ r :: post /\
          forall r', In r' pre -> Repo.day_filter ty t r' = false) /\
     (fst (Repo.find_by_type_and_date ty t s) = Ok None <->
      forall r, In r (rows s) -> Repo.day_filter ty t r = false)) /\
  (fst (Repo.find_by_type_and_date "DGS10" d1 (mkStore [row_0900] 2 0))
     = Ok (Some row_0900) /\
   fst (Repo.find_by_type_and_date "DGS10" d2 (mkStore [row_0900] 2 0))
     = Ok None).
Proof.
  split; [|split; [|split]].
  - intros ty t r. unfold Repo.day_filter.
    rewrite !andb_true_iff, String.eqb_eq, !Z.leb_le. tauto.
  - intros ty t r. rewrite day_filter_day, andb_true_iff, String.eqb_eq, Z.eqb_eq.
    tauto.
  - intros ty t s. unfold Repo.find_by_type_and_date. simpl.
    split; [reflexivity|]. split.
    + intros r Hr. injection Hr as Hr.
      pose proof (find_some _ _ Hr) as [Hin Hf].
      split; [exact Hin|]. split; [exact Hf|].
      clear Hin Hf. induction (rows s) as [|x l IH]; simpl in Hr; [discriminate|].
      destruct (Repo.day_filter ty t x) eqn:Hx.
      * injection Hr as ->. exists [], l. split; [reflexivity | intros _ []].
      * destruct (IH Hr) as (pre & post & Heq & Hpre).
        exists (x :: pre), post. rewrite Heq. split; [reflexivity|].
        intros r' [<-|Hr']; [exact Hx | exact (Hpre r' Hr')].
    + split.
      * intros H. injection H as H. exact (find_none _ _ H).
      * intros H. f_equal.
        induction (rows s) as [|x l IH]; simpl; [reflexivity|].
        rewrite (H x (or_introl eq_refl)). apply IH.
        intros r Hr. apply H. now right.
  - split; vm_compute; reflexivity.
Qed.

(** ** Grouped fetches *)

(** C4 (code_bug): when the US leading index cannot be fetched (FRED error,
    or no non-NaN observation), [get_leading_indicators] of [app/] returns
    without raising but its dict has no ['leading_index_us'] key at all,
    whereas the "latest" client of [src/] maps the key to [None]. *)
Theorem C4_failed_key_absent (fred : Fred) start_date end_date :
  FredApp.get_fred_series_value fred "USALOLITOAASTSAM" start_date end_date = None ->
  dict_lookup "leading_index_us"
    (FredApp.get_leading_indicators fred start_date end_date) = None /\
  (fred "USALOLITOAASTSAM"%string start_date end_date = FredError ->
   dict_lookup "leading_index_us"
     (FredLatest.get_leading_indicators fred start_date end_date) = Some None).
Proof.
  intros H. split.
  - unfold FredApp.get_leading_indicators, FredApp.group_values. simpl.
    rewrite H.
    destruct (FredApp.get_fred_series_value fred "BBKMLEIX" start_date end_date)
      as [[|p v]|]; reflexivity.
  - intros He. unfold FredLatest.get_leading_indicators. simpl.
    unfold FredLatest.get_latest_fred_series_value at 1. rewrite He.
    reflexivity.
Qed.

(** Witness for C4: FRED unreachable. *)
Lemma C4_failed_key_absent_witness :
  FredApp.get_fred_series_value fred_down "USALOLITOAASTSAM" d1 d3 = None /\
  dict_lookup "leading_index_us" (FredApp.get_leading_indicators fred_down d1 d3)
    = None.
Proof.
  split; [reflexivity|].
  exact (proj1 (C4_failed_key_absent fred_down d1 d3 eq_refl)).
Defined.

(** The consumer-index answers of the failing input of C7: UMCSENT fails,
    TOTALSL and DSPIC96 have two observations each in the window. *)

(** C7 (code_bug): with [consumer_sentiment] missing and its siblings
    present, [fetch_and_store_consumer_indices_by_date_range] does not
    persist the siblings and does not return True: [float(value)] on the
    two-observation Series of TOTALSL raises [TypeError], which the save
    routine re-raises. *)
Theorem C7_partial_family_raises :
  let r := Service.fetch_and_store_consumer_indices_by_date_range
             fred_consumer d1 d2 d2 (Service.empty_store 0) in
  dict_get "consumer_sentiment"
    (FredApp.get_consumer_indices fred_consumer d1 d2) = None /\
  (exists s, dict_get "consumer_credit"
               (FredApp.get_consumer_indices fred_consumer d1 d2) = Some (PSeries s)) /\
  fst r = Raise TypeError /\ rows (snd r) = [].
Proof.
  vm_compute. split; [reflexivity|]. split; [eexists; reflexivity|].
  split; reflexivity.
Qed.

(** ** "Latest" values *)




Lemma last_opt_In {A} (l : list A) x : last_opt l = Some x -> In x l.
Proof.
  induction l as [|y l IH]; simpl; [discriminate|].
  destruct l as [|z l'].
  - intros H. injection H as ->. now left.
  - intros H. right. exact (IH H).
Qed.














(** ** Store invariants of the save routines *)

Lemma py_float_float_of obj s :
  py_float obj s =
  match float_of obj with Some v => (Ok v, s) | None => (Raise TypeError, s) end.
Proof.
  destruct obj as [f|sr]; [reflexivity|].
  destruct sr as [|[d v] [|p sr]]; reflexivity.
Qed.

Lemma upsert_unfold ty nm obj dt lead region s :
  Service.upsert ty nm obj dt lead region s =
  let s1 := match find (Repo.day_filter ty dt) (rows s) with
            | Some r => snd (Repo.delete r s)
            | None => s
            end in
  match float_of obj with
  | Some v =>
      match Repo.create ty nm v dt lead region s1 with
      | (Ok _, s2) => (Ok tt, s2)
      | (Raise e, s2) => (Raise e, s2)
      end
  | None => (Raise TypeError, s1)
  end.
Proof.
  unfold Service.upsert, bind, Repo.find_by_type_and_date.
  destruct (find (Repo.day_filter ty dt) (rows s)); simpl;
    rewrite py_float_float_of; destruct (float_of obj); try reflexivity;
    destruct (Repo.create _ _ _ _ _ _ _) as [[?|?] ?]; reflexivity.
Qed.

(** A NaN value: the step deletes the row it found, then [create] raises. *)
Lemma upsert_nan ty nm obj v dt lead region s :
  float_of obj = Some v -> notna v = false ->
  Service.upsert ty nm obj dt lead region s =
  (Raise ProgrammingError,
   match find (Repo.day_filter ty dt) (rows s) with
   | Some r => snd (Repo.delete r s)
   | None => s
   end).
Proof.
  intros Hf Hv. rewrite upsert_unfold, Hf. cbv zeta.
  rewrite create_nan by exact Hv. reflexivity.
Qed.

Section Invariant.

Variable ok : Row -> Prop.

Lemma delete_all_ok r s : all_ok ok s -> all_ok ok (snd (Repo.delete r s)).
Proof.
  intros H r' Hin. simpl in Hin. apply filter_In in Hin as [Hin _]. exact (H r' Hin).
Qed.

Lemma create_all_ok ty nm v dt lead region s :
  all_ok ok s -> (notna v = true -> ok (mkRow (next_id s) ty nm v dt lead region (utcnow s))) ->
  all_ok ok (snd (Repo.create ty nm v dt lead region s)).
Proof.
  intros H Hr r Hin. unfold Repo.create in Hin.
  destruct (notna v); simpl in Hin; [|exact (H r Hin)].
  apply in_app_or in Hin as [Hin|[<-|[]]].
  - exact (H r Hin).
  - exact (Hr eq_refl).
Qed.

Lemma upsert_all_ok ty nm obj dt lead region s :
  all_ok ok s ->
  (forall v i c, float_of obj = Some v -> notna v = true ->
     ok (mkRow i ty nm v dt lead region c)) ->
  all_ok ok (snd (Service.upsert ty nm obj dt lead region s)).
Proof.
  intros H Hc. unfold Service.upsert, bind, Repo.find_by_type_and_date.
  set (s1 := match find (Repo.day_filter ty dt) (rows s) with
             | Some r => snd (Repo.delete r s) | None => s end).
  assert (H1 : all_ok ok s1).
  { unfold s1. destruct (find (Repo.day_filter ty dt) (rows s)).
    - apply delete_all_ok. exact H.
    - exact H. }
  replace (match (match find (Repo.day_filter ty dt) (rows s) with
                  | Some r => fun s0 => match Repo.delete r s0 with
                                        | (Ok _, s') => ret tt s'
                                        | (Raise e, s') => (Raise e, s')
                                        end
                  | None => ret tt
                  end) s with
           | (Ok _, s') => _ | (Raise e, s') => _ end)
    with (match (Ok tt, s1) with
          | (Ok _, s') =>
              match py_float obj s' with
              | (Ok a, s'0) =>
                  match Repo.create ty nm a dt lead region s'0 with
                  | (Ok _, s'1) => ret tt s'1
                  | (Raise e, s'1) => (Raise e, s'1)
                  end
              | (Raise e, s'0) => (Raise e, s'0)
              end
          | (Raise e, s') => (Raise e, s')
          end)
    by (unfold s1; destruct (find (Repo.day_filter ty dt) (rows s)); reflexivity).
  rewrite py_float_float_of.
  destruct (float_of obj) as [v|] eqn:Hv; cbn -[Repo.create]; [|exact H1].
  pose proof (create_all_ok ty nm v dt lead region s1 H1 (Hc v _ _ eq_refl)) as Hcr.
  destruct (Repo.create ty nm v dt lead region s1) as [[?|?] ?]; exact Hcr.
Qed.

Lemma save_group_all_ok m data now s :
  all_ok ok s ->
  (forall key obj v, dict_get key data = Some obj -> float_of obj = Some v ->
     notna v = true -> forall ty nm i c, ok (mkRow i ty nm v now false "US" c)) ->
  all_ok ok (snd (Service.save_group m data now s)).
Proof.
  revert s. induction m as [|[key [ty nm]] m IH]; intros s H Hc; simpl; [exact H|].
  destruct (dict_get key data) as [obj|] eqn:Hk; [|exact (IH s H Hc)].
  unfold bind.
  pose proof (upsert_all_ok ty nm obj now false "US" s H
                (fun v i c Hv Hn => Hc key obj v Hk Hv Hn ty nm i c)) as Hu.
  destruct (Service.upsert ty nm obj now false "US" s) as [[u|e] s'].
  - exact (IH s' Hu Hc).
  - exact Hu.
Qed.

Lemma save_series_points_all_ok ty nm sr s :
  all_ok ok s ->
  (forall d v i c, notna v = true -> ok (mkRow i ty nm v d true "US" c)) ->
  all_ok ok (snd (Service.save_series_points ty nm sr s)).
Proof.
  revert s. induction sr as [|[d v] sr IH]; intros s H Hc; simpl; [exact H|].
  unfold bind. destruct (notna v) eqn:Hn.
  - pose proof (upsert_all_ok ty nm (PFloat v) d true "US" s H
                  (fun v' i c Hv _ => ltac:(injection Hv as <-; exact (Hc d v i c Hn))))
      as Hu.
    destruct (Service.upsert ty nm (PFloat v) d true "US" s) as [[u|e] s'].
    + exact (IH s' Hu Hc).
    + exact Hu.
  - exact (IH s H Hc).
Qed.

Lemma save_leading_all_ok data s :
  all_ok ok s ->
  (forall ty nm d v i c, notna v = true -> ok (mkRow i ty nm v d true "US" c)) ->
  all_ok ok (snd (Service.save_leading_indicators_to_db data s)).
Proof.
  intros H Hc. unfold Service.save_leading_indicators_to_db, bind.
  assert (Hb : forall key ty nm s0, all_ok ok s0 ->
            all_ok ok (snd (Service.save_leading_branch key ty nm data s0))).
  { intros key ty nm s0 H0. unfold Service.save_leading_branch.
    destruct (dict_get key data) as [[f|sr]|].
    - exact H0.
    - apply save_series_points_all_ok; [exact H0 | apply Hc].
    - exact H0. }
  pose proof (Hb "leading_index_us"%string "USALOLITOAASTSAM"%string
                "US_LEADING_INDEX"%string s H) as H1.
  destruct (Service.save_leading_branch "leading_index_us" "USALOLITOAASTSAM"
              "US_LEADING_INDEX" data s) as [[u|e] s1].
  - apply Hb. exact H1.
  - exact H1.
Qed.

(** The [... ;;; ret true] tail of the orchestration methods. *)
Lemma then_true_all_ok (c : M unit) s :
  all_ok ok (snd (c s)) -> all_ok ok (snd ((c ;;; ret true) s)).
Proof. unfold bind. destruct (c s) as [[u|e] s']; simpl; auto. Qed.

End Invariant.

(** ** Dict updates *)

Lemma dict_lookup_set {V} k k' (v : V) (d : Dict V) :
  dict_lookup k (dict_set k' v d) =
  if String.eqb k k' then Some v else dict_lookup k d.
Proof.
  induction d as [|[k0 v0] d IH]; simpl; [reflexivity|].
  destruct (String.eqb_spec k' k0) as [->|Hne]; simpl.
  - destruct (String.eqb k k0); reflexivity.
  - rewrite IH.
    destruct (String.eqb_spec k k0), (String.eqb_spec k k'); subst;
      try reflexivity; congruence.
Qed.

Lemma dict_get_set {V} k k' (v : option V) (d : Dict (option V)) :
  dict_get k (dict_set k' v d) = if String.eqb k k' then v else dict_get k d.
Proof.
  unfold dict_get. rewrite dict_lookup_set.
  destruct (String.eqb k k'); [destruct v|]; reflexivity.
Qed.

Lemma dict_lookup_In {V} k (d : Dict V) x : dict_lookup k d = Some x -> In (k, x) d.
Proof.
  induction d as [|[k0 v0] d IH]; simpl; [discriminate|].
  destruct (String.eqb_spec k k0) as [->|_]; [intros [= <-]; left; reflexivity|].
  intros H. right. exact (IH H).
Qed.

(** ** NaN-free series from the FRED client *)

Lemma dropna_nan_free s : nan_free (dropna s).
Proof.
  intros d v Hin. unfold dropna in Hin. apply filter_In in Hin as [_ H]. exact H.
Qed.

Lemma get_fred_series_value_nan_free fred sid st en s :
  FredApp.get_fred_series_value fred sid st en = Some s -> nan_free s /\ s <> [].
Proof.
  unfold FredApp.get_fred_series_value.
  destruct (fred sid st en) as [data|]; [|discriminate].
  destruct (dropna data) as [|p l] eqn:E; [discriminate|].
  intros [= <-]. split; [rewrite <- E; apply dropna_nan_free | discriminate].
Qed.

Lemma group_values_series fred m st en k obj :
  dict_get k (FredApp.group_values fred m st en) = Some obj ->
  exists s, obj = PSeries s /\ nan_free s /\ s <> [].
Proof.
  unfold FredApp.group_values.
  assert (Hgen : forall acc : Dict (option PyObj),
    (forall k obj, dict_get k acc = Some obj ->
       exists s, obj = PSeries s /\ nan_free s /\ s <> []) ->
    forall k obj,
      dict_get k (fold_left
        (fun values '(key, series_id) =>
           match FredApp.get_fred_series_value fred series_id st en with
           | Some value =>
               dict_set key
                 (match value with [] => None | _ => Some (PSeries value) end)
                 values
           | None => values
           end) m acc) = Some obj ->
      exists s, obj = PSeries s /\ nan_free s /\ s <> []).
  { induction m as [|[key sid] m IH]; intros acc Hacc; simpl; [exact Hacc|].
    apply IH. intros k' obj'.
    destruct (FredApp.get_fred_series_value fred sid st en) as [s|] eqn:E;
      [|apply Hacc].
    rewrite dict_get_set. destruct (String.eqb k' key); [|apply Hacc].
    apply get_fred_series_value_nan_free in E as [Hn Hne].
    destruct s as [|p s]; [congruence|].
    intros [= <-]. exists (p :: s). auto. }
  apply Hgen. intros k' obj' H. discriminate H.
Qed.

(** A one-point series of non-NaN values converts to a number. *)
Lemma float_of_nan_free s v :
  nan_free s -> float_of (PSeries s) = Some v -> notna v = true.
Proof.
  intros Hn H. destruct s as [|[d x] [|p s]]; simpl in H; try discriminate.
  injection H as <-. exact (Hn d x (or_introl eq_refl)).
Qed.

Lemma align_join_nonempty_l da x a b : align_join ((da, x) :: a) b <> [].
Proof.
  destruct b as [|[db y] b]; [discriminate|].
  rewrite align_join_cons_cons.
  destruct (da <? db); [discriminate|]. destruct (db <? da); discriminate.
Qed.

Lemma align_join_nonempty_r a db y b : align_join a ((db, y) :: b) <> [].
Proof.
  destruct a as [|[da x] a]; [discriminate|].
  rewrite align_join_cons_cons.
  destruct (da <? db); [discriminate|]. destruct (db <? da); discriminate.
Qed.

(** [float(spread)] of two non-empty NaN-free yield series is a number when
    it is defined: a one-point spread comes from one shared date. *)
Lemma spread_float_notna a b v :
  nan_free a -> a <> [] -> nan_free b -> b <> [] ->
  float_of (PSeries (spread a b)) = Some v -> notna v = true.
Proof.
  intros Ha Hane Hb Hbne H. rewrite spread_as_map in H.
  destruct a as [|[da x] a']; [congruence|].
  destruct b as [|[db y] b']; [congruence|].
  rewrite align_join_cons_cons in H.
  destruct (da <? db).
  - pose proof (align_join_nonempty_r a' db y b') as Hj.
    destruct (align_join a' ((db, y) :: b')) as [|[d' [x' y']] J];
      [congruence | discriminate H].
  - destruct (db <? da).
    + pose proof (align_join_nonempty_l da x a' b') as Hj.
      destruct (align_join ((da, x) :: a') b') as [|[d' [x' y']] J];
        [congruence | discriminate H].
    + destruct (align_join a' b') as [|[d' [x' y']] J]; [|discriminate H].
      simpl in H. injection H as <-.
      pose proof (Ha da x (or_introl eq_refl)) as Hx.
      pose proof (Hb db y (or_introl eq_refl)) as Hy.
      destruct x, y; simpl in *; congruence.
Qed.

Lemma treasury_series_data fred st en k s :
  dict_get k
    (fold_left
       (fun sd series_id =>
          match FredApp.get_fred_series_value fred series_id st en with
          | Some value =>
              dict_set (lower series_id)
                (match value with [] => None | _ => Some value end) sd
          | None => sd
          end)
       FredApp.treasury_series_ids []) = Some s ->
  nan_free s /\ s <> [].
Proof.
  assert (Hgen : forall (ids : list string) (acc : Dict (option Series)),
    (forall k s, dict_get k acc = Some s -> nan_free s /\ s <> []) ->
    forall k s,
      dict_get k
        (fold_left
           (fun sd series_id =>
              match FredApp.get_fred_series_value fred series_id st en with
              | Some value =>
                  dict_set (lower series_id)
                    (match value with [] => None | _ => Some value end) sd
              | None => sd
              end) ids acc) = Some s ->
      nan_free s /\ s <> []).
  { intros ids. induction ids as [|sid ids IH]; intros acc Hacc; simpl; [exact Hacc|].
    apply IH. intros k' s'.
    destruct (FredApp.get_fred_series_value fred sid st en) as [v|] eqn:E;
      [|apply Hacc].
    rewrite dict_get_set. destruct (String.eqb k' (lower sid)); [|apply Hacc].
    apply get_fred_series_value_nan_free in E as [Hn Hne].
    destruct v as [|p v]; [congruence|].
    intros [= <-]. auto. }
  apply Hgen. intros k' s' H. discriminate H.
Qed.

(** Every value the app/ FRED client's treasury result hands to [float()]
    converts, when it does, to a number. *)
Lemma treasury_float_notna fred st en k obj v :
  dict_get k (FredApp.get_treasury_yields_and_spreads fred st en) = Some obj ->
  float_of obj = Some v -> notna v = true.
Proof.
  unfold FredApp.get_treasury_yields_and_spreads.
  match goal with
  | |- context [fold_left ?f ?l ?a] => set (sd := fold_left f l a)
  end.
  assert (Hsd : forall k s, dict_get k sd = Some s -> nan_free s /\ s <> [])
    by (intros k' s'; apply treasury_series_data).
  cbv zeta. unfold dict_get at 1. intros H Hv.
  destruct (dict_lookup k _) as [[obj'|]|] eqn:E; [|discriminate|discriminate].
  injection H as ->. apply dict_lookup_In in E.
  assert (Hser : forall o, option_map PSeries (dict_get o sd) = Some obj ->
                 notna v = true).
  { intros o Ho. destruct (dict_get o sd) as [s|] eqn:Es; [|discriminate].
    injection Ho as <-. apply (Hsd o s) in Es as [Hn _].
    exact (float_of_nan_free s v Hn Hv). }
  assert (Hspr : forall o,
            option_map PSeries
              (match dict_get "dgs10" sd, dict_get o sd with
               | Some a, Some b => Some (spread a b)
               | _, _ => None
               end) = Some obj -> notna v = true).
  { intros o Ho.
    destruct (dict_get "dgs10" sd) as [a|] eqn:Ea; [|discriminate].
    destruct (dict_get o sd) as [b|] eqn:Eb; [|discriminate].
    injection Ho as <-.
    apply Hsd in Ea as [Ha Hane]. apply Hsd in Eb as [Hb Hbne].
    exact (spread_float_notna a b v Ha Hane Hb Hbne Hv). }
  simpl in E.
  destruct E as [E|[E|[E|[E|[E|[]]]]]]; injection E as _ E.
  - exact (Hser _ E).
  - exact (Hser _ E).
  - exact (Hser _ E).
  - exact (Hspr _ E).
  - exact (Hspr _ E).
Qed.

(** ** What the orchestration methods store *)

Lemma run_call_notna c s :
  all_ok row_notna s -> all_ok row_notna (snd (Service.run_call c s)).
Proof.
  intros H.
  assert (Hg : forall m data now,
            all_ok row_notna (snd ((Service.save_group m data now ;;; ret true) s))).
  { intros m data now. apply then_true_all_ok. apply save_group_all_ok; [exact H|].
    intros k obj v _ _ Hn ty nm i c0. exact Hn. }
  destruct c; simpl.
  - apply then_true_all_ok. apply save_leading_all_ok; [exact H|].
    intros ty nm d v i c0 Hn. exact Hn.
  - apply Hg.
  - apply Hg.
  - apply Hg.
  - exact H.
  - apply Hg.
Qed.

Lemma run_call_us c s : all_ok row_us s -> all_ok row_us (snd (Service.run_call c s)).
Proof.
  intros H.
  assert (Hg : forall m data now,
            all_ok row_us (snd ((Service.save_group m data now ;;; ret true) s))).
  { intros m data now. apply then_true_all_ok. apply save_group_all_ok; [exact H|].
    intros. reflexivity. }
  destruct c; simpl.
  - apply then_true_all_ok. apply save_leading_all_ok; [exact H|]. intros. reflexivity.
  - apply Hg.
  - apply Hg.
  - apply Hg.
  - exact H.
  - apply Hg.
Qed.

Lemma run_calls_us cs s : all_ok row_us s -> all_ok row_us (Service.run_calls cs s).
Proof.
  revert s. induction cs as [|c cs IH]; intros s H; simpl; [exact H|].
  apply IH. apply run_call_us. exact H.
Qed.

(** ** Non-numeric values reaching [create] (C6) *)

(** C6 (code_bug). Normalisation does not keep NaN away from [create]:
    [_get_latest_price] takes [data['Close'].iloc[-1]] without dropping
    NaN, so a NaN last close of CL=F reaches the commodity save routine,
    which hands [float(nan)] to [create]. The driver refuses it: [create]
    raises [ProgrammingError] exactly for a NaN value. The routine has by
    then deleted the day's existing CRUDE_OIL_FUT row, and it stops before
    GOLD_FUT, so the orchestration raises and the store loses the row. What
    the database holds stays NaN-free: no orchestration call ever leaves a
    NaN row in a store that had none. *)
Theorem C6_yahoo_nan_reaches_create :
  dict_get "crude_oil" (Yahoo.get_commodity_prices yahoo_nan_close d1 d3) =
    Some (PFloat NaN) /\
  (forall ty nm v dt lead region s,
     fst (Repo.create ty nm v dt lead region s) = Raise ProgrammingError <->
     notna v = false) /\
  Service.fetch_and_store_commodity_prices_by_date_range yahoo_nan_close d1 d3 d3
    store_crude_d3 = (Raise ProgrammingError, mkStore [] 8 0) /\
  (forall c s, all_ok row_notna s -> all_ok row_notna (snd (Service.run_call c s))).
Proof.
  split; [reflexivity|]. split.
  - intros ty nm v dt lead region s. unfold Repo.create.
    destruct (notna v); simpl; split; congruence.
  - split; [vm_compute; reflexivity|]. exact run_call_notna.
Qed.

(** ** Regions and the read accessors (C10) *)

(** C10. Every row the service's save routines create has region "US",
    the BBKMLEIX rows of [_save_leading_indicators_to_db] included: after any
    sequence of orchestration calls on an empty store, every row is a "US"
    row. The CHINA read accessor does not return the (empty) mapping of its
    region, however: it raises [AttributeError], as the repository has no
    [find_by_region_date_range]. *)
Theorem C10_all_rows_us_china_accessor_raises :
  forall (cs : list Service.Call) (clock : Z),
    all_ok row_us (Service.run_calls cs (Service.empty_store clock)) /\
    (forall st en s,
       Service.get_all_china_indicators st en s =
       (Raise (AttributeError "find_by_region_date_range"), s)).
Proof.
  intros cs clock. split.
  - apply run_calls_us. intros r [].
  - intros st en s. reflexivity.
Qed.

(** ** Rows created by the "latest" save routines (C9) *)

(** One point (type, name, value, [now]) per non-None value, in the
    mapping's order. *)








(** The dict a "latest" treasury client hands to the save routine:
    10Y 4.50, 2Y 4.10, 3M 5.00 and the two spreads (hundredths). *)




(* ================================================================== *)
(** * Further properties of the repository, clients, service and router *)

(** ** Repository round trips *)

Lemma find_app_none {A} (f : A -> bool) (l1 l2 : list A) :
  find f l1 = None -> find f (l1 ++ l2) = find f l2.
Proof.
  induction l1 as [|x l1 IH]; simpl; [reflexivity|].
  destruct (f x); [discriminate | exact IH].
Qed.

Lemma find_app_some {A} (f : A -> bool) (l1 l2 : list A) x :
  find f l1 = Some x -> find f (l1 ++ l2) = Some x.
Proof.
  induction l1 as [|y l1 IH]; simpl; [discriminate|].
  destruct (f y); [exact (fun H => H) | exact IH].
Qed.

Lemma find_none_intro {A} (f : A -> bool) (l : list A) :
  (forall x, In x l -> f x = false) -> find f l = None.
Proof.
  induction l as [|x l IH]; simpl; intros H; [reflexivity|].
  rewrite (H x (or_introl eq_refl)). apply IH. intros y Hy. apply H. now right.
Qed.

Lemma find_id_below (rs : list Row) (n : Z) :
  (forall r, In r rs -> row_id r < n) -> find (fun r => row_id r =? n) rs = None.
Proof.
  intros H. apply find_none_intro. intros r Hr.
  apply Z.eqb_neq. specialize (H r Hr). lia.
Qed.

(** [create] then [get_by_id]: on a store whose ids lie below the counter,
    a NaN value is refused ([ProgrammingError], nothing changes); any other
    value gives a row that is found under the id [create] gave it; the other
    ids find what they found before; [get_all], [get_by_type] and
    [get_by_name] list it after the rows already there. *)
Theorem repo_create_then_get ty nm v dt lead region s :
  ids_below s ->
  (notna v = false ->
   Repo.create ty nm v dt lead region s = (Raise ProgrammingError, s)) /\
  (notna v = true ->
  let r := Repo.create ty nm v dt lead region s in
  let row := mkRow (next_id s) ty nm v dt lead region (utcnow s) in
  fst r = Ok row /\
  fst (Repo.get_by_id (next_id s) (snd r)) = Ok (Some row) /\
  (forall i, i <> next_id s ->
     fst (Repo.get_by_id i (snd r)) = fst (Repo.get_by_id i s)) /\
  fst (Repo.get_all (snd r)) = Ok (rows s ++ [row]) /\
  (forall t l, fst (Repo.get_by_type t s) = Ok l ->
     fst (Repo.get_by_type t (snd r)) = Ok (l ++ if String.eqb ty t then [row] else [])) /\
  (forall n l, fst (Repo.get_by_name n s) = Ok l ->
     fst (Repo.get_by_name n (snd r)) = Ok (l ++ if String.eqb nm n then [row] else [])) /\
  ids_below (snd r)).
Proof.
  intros Hids. split; [exact (create_nan ty nm v dt lead region s)|].
  intros Hv r row. unfold r, row. rewrite create_ok by exact Hv. simpl. repeat split.
  - rewrite find_app_none by exact (find_id_below _ _ Hids). simpl.
    rewrite Z.eqb_refl. reflexivity.
  - intros i Hi. destruct (find (fun r0 => row_id r0 =? i) (rows s)) eqn:E.
    + erewrite find_app_some; [reflexivity | exact E].
    + rewrite find_app_none by exact E. simpl.
      apply Z.eqb_neq in Hi. rewrite Z.eqb_sym, Hi. reflexivity.
  - intros t l [= <-]. rewrite filter_app. simpl.
    destruct (String.eqb ty t); reflexivity.
  - intros n l [= <-]. rewrite filter_app. simpl.
    destruct (String.eqb nm n); reflexivity.
  - intros x Hx. simpl in Hx. apply in_app_or in Hx as [Hx|[<-|[]]]; simpl.
    + specialize (Hids x Hx). lia.
    + lia.
Qed.

Lemma find_filter_imp {A} (f g : A -> bool) (l : list A) :
  (forall x, f x = true -> g x = true) -> find f (filter g l) = find f l.
Proof.
  intros H. induction l as [|x l IH]; simpl; [reflexivity|].
  destruct (g x) eqn:Eg; simpl.
  - destruct (f x); [reflexivity | exact IH].
  - destruct (f x) eqn:Ef; [rewrite (H x Ef) in Eg; discriminate | exact IH].
Qed.

(** [delete] then [get_by_id]: the deleted id finds nothing, the other ids
    find what they found before, the id counter does not move. *)
Theorem repo_delete_then_get r s :
  let d := Repo.delete r s in
  fst d = Ok true /\
  fst (Repo.get_by_id (row_id r) (snd d)) = Ok None /\
  (forall i, i <> row_id r ->
     fst (Repo.get_by_id i (snd d)) = fst (Repo.get_by_id i s)) /\
  next_id (snd d) = next_id s.
Proof.
  intros d. unfold d. simpl. repeat split.
  - rewrite find_none_intro; [reflexivity|]. intros x Hx.
    apply filter_In in Hx as [_ Hx]. apply negb_true_iff in Hx. exact Hx.
  - intros i Hi. rewrite find_filter_imp; [reflexivity|].
    intros x Hx. apply Z.eqb_eq in Hx. apply negb_true_iff, Z.eqb_neq. lia.
Qed.

Lemma apply_kwargs_id r kwargs :
  Forall (fun kw => forall v, kw <> Repo.KwId v) kwargs ->
  row_id (Repo.apply_kwargs r kwargs) = row_id r.
Proof.
  unfold Repo.apply_kwargs. revert r.
  induction kwargs as [|kw kwargs IH]; intros r H; simpl; [reflexivity|].
  inversion H as [|? ? Hkw Hrest]; subst.
  rewrite (IH _ Hrest). destruct kw; try reflexivity. exfalso. exact (Hkw v eq_refl).
Qed.

Lemma find_replace_first_same i r r' rs :
  find (fun x => row_id x =? i) rs = Some r -> row_id r' = i ->
  find (fun x => row_id x =? i) (Repo.replace_first i r' rs) = Some r'.
Proof.
  intros Hf Hid. induction rs as [|x rs IH]; simpl in *; [discriminate|].
  destruct (row_id x =? i) eqn:Ex; simpl.
  - rewrite Hid, Z.eqb_refl. reflexivity.
  - rewrite Ex. exact (IH Hf).
Qed.

Lemma find_replace_first_other i j r' rs :
  j <> i -> row_id r' = i ->
  find (fun x => row_id x =? j) (Repo.replace_first i r' rs) =
  find (fun x => row_id x =? j) rs.
Proof.
  intros Hji Hid. induction rs as [|x rs IH]; simpl; [reflexivity|].
  destruct (Z.eqb_spec (row_id x) i) as [Hx|Hx]; simpl.
  - rewrite Hid, Hx. apply Z.eqb_neq in Hji. rewrite Z.eqb_sym in Hji.
    rewrite Hji. reflexivity.
  - destruct (row_id x =? j); [reflexivity | exact IH].
Qed.

Lemma replace_first_length i r' rs :
  List.length (Repo.replace_first i r' rs) = List.length rs.
Proof.
  induction rs as [|x rs IH]; simpl; [reflexivity|].
  destruct (row_id x =? i); simpl; congruence.
Qed.

(** [update] then [get_by_id], for keyword arguments that do not set [id]:
    an id that finds nothing leaves the store as it was and returns [None];
    otherwise, when the arguments write [value] and leave it NaN, the commit
    raises [ProgrammingError] and nothing changes; in every other case the
    returned row is the found row with the attributes set in order,
    [get_by_id] finds that row afterwards, the other ids find what they
    found before, and the table keeps its size and id counter. *)
Theorem repo_update_then_get i kwargs s :
  Forall (fun kw => forall v, kw <> Repo.KwId v) kwargs ->
  (fst (Repo.get_by_id i s) = Ok None -> Repo.update i kwargs s = (Ok None, s)) /\
  (forall r, fst (Repo.get_by_id i s) = Ok (Some r) ->
     let u := Repo.update i kwargs s in
     let r' := Repo.apply_kwargs r kwargs in
     (Repo.sets_value kwargs && negb (notna (row_value r')) = true ->
      u = (Raise ProgrammingError, s)) /\
     (Repo.sets_value kwargs && negb (notna (row_value r')) = false ->
      fst u = Ok (Some r') /\
      fst (Repo.get_by_id i (snd u)) = Ok (Some r') /\
      (forall j, j <> i -> fst (Repo.get_by_id j (snd u)) = fst (Repo.get_by_id j s)) /\
      List.length (rows (snd u)) = List.length (rows s) /\
      next_id (snd u) = next_id s)).
Proof.
  intros Hkw. split.
  - simpl. intros [= E]. unfold Repo.update. rewrite E. reflexivity.
  - intros r Hr u r'. simpl in Hr. injection Hr as E.
    assert (Hid : row_id r' = i).
    { unfold r'. rewrite (apply_kwargs_id r kwargs Hkw).
      apply find_some in E as [_ E]. apply Z.eqb_eq. exact E. }
    unfold u. unfold Repo.update. rewrite E. fold r'.
    destruct (Repo.sets_value kwargs && negb (notna (row_value r'))) eqn:Hn;
      (split; intros Hb; [|]); try discriminate; [reflexivity|].
    simpl. repeat split.
    + rewrite (find_replace_first_same i r r' (rows s) E Hid). reflexivity.
    + intros j Hj. rewrite (find_replace_first_other i j r' (rows s) Hj Hid).
      reflexivity.
    + apply replace_first_length.
Qed.

(** ** The upsert step *)

(** With no row left for a (type, day) pair, [find_by_type_and_date]
    finds nothing. *)
Lemma find_day_none ty t s :
  count_day ty t s = 0%nat -> find (Repo.day_filter ty t) (rows s) = None.
Proof.
  intros H0. unfold count_day in H0. apply length_zero_iff_nil in H0.
  apply find_none_intro. intros x Hx. rewrite day_filter_day.
  destruct (String.eqb (row_type x) ty && (day_of (row_date_time x) =? day_of t))
    eqn:Ex; [|reflexivity].
  assert (Hin : In x (rows_for ty t s)) by (apply filter_In; auto).
  rewrite H0 in Hin. destruct Hin.
Qed.

(** Run on a (type, day) pair holding at most one row, the upsert step
    with a value that is not NaN completes and [find_by_type_and_date] then
    returns the row it created; with NaN, [create] raises
    [ProgrammingError] and [find_by_type_and_date] then finds nothing, the
    old row having been deleted. *)
Theorem upsert_then_find ty nm v t lead region s :
  (count_day ty t s <= 1)%nat ->
  let u := Service.upsert ty nm (PFloat v) t lead region s in
  (notna v = true ->
   fst u = Ok tt /\
   fst (Repo.find_by_type_and_date ty t (snd u)) =
     Ok (Some (mkRow (next_id s) ty nm v t lead region (utcnow s)))) /\
  (notna v = false ->
   fst u = Raise ProgrammingError /\
   fst (Repo.find_by_type_and_date ty t (snd u)) = Ok None).
Proof.
  intros Hle u. pose proof (clear_day_count ty t s Hle) as H0.
  split; intros Hv.
  - unfold u. rewrite upsert_scalar_unfold by exact Hv. cbv zeta.
    set (s1 := match find (Repo.day_filter ty t) (rows s) with
               | Some r => snd (Repo.delete r s) | None => s end) in *.
    assert (Hs1 : next_id s1 = next_id s /\ utcnow s1 = utcnow s)
      by (unfold s1; destruct (find (Repo.day_filter ty t) (rows s)); auto).
    rewrite create_ok by exact Hv.
    split; [reflexivity|]. simpl.
    rewrite find_app_none by (apply find_day_none; exact H0).
    simpl. rewrite day_filter_day. simpl. rewrite String.eqb_refl, Z.eqb_refl.
    destruct Hs1 as [-> ->]. reflexivity.
  - unfold u. rewrite (upsert_nan ty nm (PFloat v) v t lead region s eq_refl Hv).
    split; [reflexivity|]. simpl. rewrite find_day_none by exact H0. reflexivity.
Qed.

(** ** Well-formedness and the rows an orchestration call leaves alone *)

Lemma NoDup_map_inj {A B} (f : A -> B) (l : list A) x y :
  NoDup (map f l) -> In x l -> In y l -> f x = f y -> x = y.
Proof.
  induction l as [|z l IH]; simpl; [tauto|].
  intros Hnd Hx Hy Hf. inversion Hnd as [|? ? Hz Hnd']; subst.
  destruct Hx as [<-|Hx], Hy as [<-|Hy]; auto.
  - exfalso. apply Hz. rewrite Hf. apply in_map. exact Hy.
  - exfalso. apply Hz. rewrite <- Hf. apply in_map. exact Hx.
Qed.

Lemma NoDup_map_filter {A B} (f : A -> B) (g : A -> bool) (l : list A) :
  NoDup (map f l) -> NoDup (map f (filter g l)).
Proof.
  induction l as [|x l IH]; simpl; intros Hnd; [constructor|].
  inversion Hnd as [|? ? Hx Hnd']; subst.
  destruct (g x); simpl; [|exact (IH Hnd')].
  constructor; [|exact (IH Hnd')].
  intros Hin. apply Hx. apply in_map_iff in Hin as (y & Hy & Hin).
  apply filter_In in Hin as [Hin _]. rewrite <- Hy. apply in_map. exact Hin.
Qed.

Lemma NoDup_snoc {A} (l : list A) a : NoDup l -> ~ In a l -> NoDup (l ++ [a]).
Proof.
  induction l as [|x l IH]; simpl; intros Hnd Ha.
  - constructor; [tauto | constructor].
  - inversion Hnd as [|? ? Hx Hnd']; subst. constructor.
    + rewrite in_app_iff. simpl. intros [H|[H|[]]]; [exact (Hx H) | apply Ha; left; symmetry; exact H].
    + apply IH; [exact Hnd' | intros H; apply Ha; right; exact H].
Qed.

Lemma keeps_refl types s : wf s -> keeps types s s.
Proof. intros H. split; auto. Qed.

Lemma keeps_trans types s1 s2 s3 :
  keeps types s1 s2 -> keeps types s2 s3 -> keeps types s1 s3.
Proof.
  intros [_ H12] [Hwf H23]. split; [exact Hwf|]. intros x Hx Hty. auto.
Qed.

Lemma keeps_weaken types types' s s' :
  (forall t, In t types -> In t types') -> keeps types s s' -> keeps types' s s'.
Proof.
  intros Hsub [Hwf H]. split; [exact Hwf|]. intros x Hx Hty.
  apply H; [exact Hx|]. intros Ht. apply Hty. exact (Hsub _ Ht).
Qed.

(** Composition through [bind]. *)
Lemma bind_keeps {A B} types (c : M A) (k : A -> M B) s :
  wf s ->
  (forall s0, wf s0 -> keeps types s0 (snd (c s0))) ->
  (forall a s0, wf s0 -> keeps types s0 (snd (k a s0))) ->
  keeps types s (snd (bind c k s)).
Proof.
  intros Hwf Hc Hk. unfold bind.
  pose proof (Hc s Hwf) as H1.
  destruct (c s) as [[a|e] s1]; simpl in *; [|exact H1].
  apply (keeps_trans _ s s1); [exact H1|]. apply Hk. exact (proj1 H1).
Qed.

Lemma delete_keeps ty r s :
  wf s -> In r (rows s) -> row_type r = ty ->
  keeps [ty] s (snd (Repo.delete r s)).
Proof.
  intros [Hids Hnd] Hr Hty. simpl. split; [split|].
  - intros x Hx. apply filter_In in Hx as [Hx _]. exact (Hids x Hx).
  - apply NoDup_map_filter. exact Hnd.
  - intros x Hx Hxt. apply filter_In. split; [exact Hx|].
    apply negb_true_iff, Z.eqb_neq. intros Heq.
    assert (x = r) as -> by exact (NoDup_map_inj row_id (rows s) x r Hnd Hx Hr Heq).
    apply Hxt. left. symmetry. exact Hty.
Qed.

Lemma create_keeps types ty nm v dt lead region s :
  wf s -> keeps types s (snd (Repo.create ty nm v dt lead region s)).
Proof.
  intros Hwf. unfold Repo.create.
  destruct (notna v); [|apply keeps_refl; exact Hwf].
  destruct Hwf as [Hids Hnd]. simpl. split; [split|].
  - intros x Hx. simpl in Hx. apply in_app_or in Hx as [Hx|[<-|[]]]; simpl.
    + specialize (Hids x Hx). lia.
    + lia.
  - cbn. rewrite map_app. simpl. apply NoDup_snoc; [exact Hnd|].
    intros Hin. apply in_map_iff in Hin as (x & Hx & Hin).
    specialize (Hids x Hin). lia.
  - intros x Hx _. apply in_or_app. left. exact Hx.
Qed.

Lemma upsert_keeps ty nm obj dt lead region s :
  wf s -> keeps [ty] s (snd (Service.upsert ty nm obj dt lead region s)).
Proof.
  intros Hwf. rewrite upsert_unfold. cbv zeta.
  assert (H1 : keeps [ty] s
                 (match find (Repo.day_filter ty dt) (rows s) with
                  | Some r => snd (Repo.delete r s) | None => s end)).
  { destruct (find (Repo.day_filter ty dt) (rows s)) as [r|] eqn:Hf.
    - apply find_some in Hf as [Hin Hr]. apply delete_keeps; [exact Hwf | exact Hin|].
      rewrite day_filter_day in Hr. apply andb_prop in Hr as [Hr _].
      apply String.eqb_eq. exact Hr.
    - apply keeps_refl. exact Hwf. }
  destruct (float_of obj) as [v|]; [|exact H1].
  apply (keeps_trans _ s _ _ H1).
  pose proof (create_keeps [ty] ty nm v dt lead region _ (proj1 H1)) as Hc.
  destruct (Repo.create ty nm v dt lead region _) as [[?|?] ?]; exact Hc.
Qed.

Lemma save_group_keeps m data now s :
  wf s -> keeps (mapping_types m) s (snd (Service.save_group m data now s)).
Proof.
  revert s. induction m as [|[key [ty nm]] m IH]; intros s Hwf; simpl.
  - apply keeps_refl. exact Hwf.
  - destruct (dict_get key data) as [obj|].
    + apply bind_keeps; [exact Hwf | |].
      * intros s0 H0. apply (keeps_weaken [ty]); [|apply upsert_keeps; exact H0].
        intros t [<-|[]]. left. reflexivity.
      * intros _ s0 H0. apply (keeps_weaken (mapping_types m)); [|exact (IH s0 H0)].
        intros t Ht. right. exact Ht.
    + apply (keeps_weaken (mapping_types m)); [|exact (IH s Hwf)].
      intros t Ht. right. exact Ht.
Qed.

Lemma save_series_points_keeps ty nm sr s :
  wf s -> keeps [ty] s (snd (Service.save_series_points ty nm sr s)).
Proof.
  revert s. induction sr as [|[d v] sr IH]; intros s Hwf; simpl.
  - apply keeps_refl. exact Hwf.
  - apply bind_keeps; [exact Hwf | | intros _ s0 H0; exact (IH s0 H0)].
    intros s0 H0. destruct (notna v).
    + apply upsert_keeps. exact H0.
    + apply keeps_refl. exact H0.
Qed.

Lemma save_leading_keeps data s :
  wf s -> keeps ["USALOLITOAASTSAM"; "BBKMLEIX"]%string s
            (snd (Service.save_leading_indicators_to_db data s)).
Proof.
  intros Hwf. unfold Service.save_leading_indicators_to_db.
  assert (Hb : forall key ty nm s0, wf s0 -> In ty ["USALOLITOAASTSAM"; "BBKMLEIX"]%string ->
            keeps ["USALOLITOAASTSAM"; "BBKMLEIX"]%string s0
              (snd (Service.save_leading_branch key ty nm data s0))).
  { intros key ty nm s0 H0 Hty. unfold Service.save_leading_branch.
    destruct (dict_get key data) as [[f|sr]|]; simpl; try (apply keeps_refl; exact H0).
    apply (keeps_weaken [ty]); [|apply save_series_points_keeps; exact H0].
    intros t [<-|[]]. exact Hty. }
  apply bind_keeps; [exact Hwf | |].
  - intros s0 H0. apply Hb; [exact H0 | left; reflexivity].
  - intros _ s0 H0. apply Hb; [exact H0 | right; left; reflexivity].
Qed.

Lemma then_true_keeps types (c : M unit) s :
  wf s -> (forall s0, wf s0 -> keeps types s0 (snd (c s0))) ->
  keeps types s (snd ((c ;;; ret true) s)).
Proof.
  intros Hwf Hc. apply bind_keeps; [exact Hwf | exact Hc |].
  intros _ s0 H0. apply keeps_refl. exact H0.
Qed.

(** Every orchestration call keeps the table well formed (distinct ids
    below the counter) and never removes a row whose type it does not
    write, whatever the providers answer and whether it raises or not; a
    sequence of calls keeps the table well formed. *)
Theorem orchestration_keeps_other_rows :
  (forall c s, wf s ->
     wf (snd (Service.run_call c s)) /\
     forall x, In x (rows s) -> ~ In (row_type x) (call_types c) ->
       In x (rows (snd (Service.run_call c s)))) /\
  (forall cs s, wf s -> wf (Service.run_calls cs s)).
Proof.
  assert (Hcall : forall c s, wf s -> keeps (call_types c) s (snd (Service.run_call c s))).
  { intros c s Hwf. destruct c; simpl.
    - apply then_true_keeps; [exact Hwf|]. intros s0 H0. apply save_leading_keeps. exact H0.
    - apply then_true_keeps; [exact Hwf|]. intros s0 H0. apply save_group_keeps. exact H0.
    - apply then_true_keeps; [exact Hwf|]. intros s0 H0. apply save_group_keeps. exact H0.
    - apply then_true_keeps; [exact Hwf|]. intros s0 H0. apply save_group_keeps. exact H0.
    - apply keeps_refl. exact Hwf.
    - apply then_true_keeps; [exact Hwf|]. intros s0 H0. apply save_group_keeps. exact H0. }
  split.
  - intros c s Hwf. destruct (Hcall c s Hwf) as [H1 H2]. split; [exact H1 | exact H2].
  - intros cs. induction cs as [|c cs IH]; intros s Hwf; simpl; [exact Hwf|].
    apply IH. exact (proj1 (Hcall c s Hwf)).
Qed.

(** ** The grouped series methods of the app/ FRED client *)

Lemma find_key_absent (key : string) (m : list (string * string)) :
  ~ In key (map fst m) -> find (fun p => String.eqb key (fst p)) m = None.
Proof.
  induction m as [|[k x] m IH]; simpl; intros H; [reflexivity|].
  destruct (String.eqb_spec key k) as [->|_]; [exfalso; apply H; left; reflexivity|].
  apply IH. intros Hin. apply H. right. exact Hin.
Qed.

Lemma group_fold_lookup fred st en (m : list (string * string)) acc key :
  NoDup (map fst m) ->
  dict_lookup key
    (fold_left
       (fun values '(key, series_id) =>
          match FredApp.get_fred_series_value fred series_id st en with
          | Some value =>
              dict_set key
                (match value with [] => None | _ => Some (PSeries value) end)
                values
          | None => values
          end) m acc) =
  match find (fun p => String.eqb key (fst p)) m with
  | Some (_, series_id) =>
      match FredApp.get_fred_series_value fred series_id st en with
      | Some v => Some (Some (PSeries v))
      | None => dict_lookup key acc
      end
  | None => dict_lookup key acc
  end.
Proof.
  revert acc. induction m as [|[k sid] m IH]; intros acc Hnd; simpl; [reflexivity|].
  inversion Hnd as [|? ? Hk Hnd']; subst.
  rewrite (IH _ Hnd').
  assert (Hstep : forall key', key' <> k ->
    dict_lookup key'
      (match FredApp.get_fred_series_value fred sid st en with
       | Some value =>
           dict_set k (match value with [] => None | _ => Some (PSeries value) end) acc
       | None => acc
       end) = dict_lookup key' acc).
  { intros key' Hne. destruct (FredApp.get_fred_series_value fred sid st en); [|reflexivity].
    rewrite dict_lookup_set. destruct (String.eqb_spec key' k); [congruence | reflexivity]. }
  destruct (String.eqb_spec key k) as [->|Hne].
  - rewrite (find_key_absent k m Hk).
    destruct (FredApp.get_fred_series_value fred sid st en) as [v|] eqn:E; [|reflexivity].
    rewrite dict_lookup_set, String.eqb_refl.
    apply get_fred_series_value_nan_free in E as [_ Hne].
    destruct v; [congruence | reflexivity].
  - destruct (find (fun p => String.eqb key (fst p)) m) as [[k' sid']|];
      [destruct (FredApp.get_fred_series_value fred sid' st en)|]; auto.
Qed.

Lemma group_values_lookup fred m st en key :
  NoDup (map fst m) ->
  dict_lookup key (FredApp.group_values fred m st en) = group_entry fred m st en key.
Proof.
  intros Hnd. unfold FredApp.group_values, group_entry.
  rewrite (group_fold_lookup fred st en m [] key Hnd).
  destruct (find (fun p => String.eqb key (fst p)) m) as [[k sid]|]; [|reflexivity].
  destruct (FredApp.get_fred_series_value fred sid st en); reflexivity.
Qed.

(** [get_leading_indicators], [get_consumer_indices] and
    [get_financial_condition_indices] (app/ client) hold, under each key of
    their series map, the (NaN-dropped, non-empty) series of the mapped id
    when its fetch gives one, and no entry when the fetch fails or yields
    only NaN; keys outside the map are never present and no value is
    ever None. *)
Theorem fred_group_methods_lookup fred st en key :
  dict_lookup key (FredApp.get_leading_indicators fred st en) =
    group_entry fred FredApp.leading_series_map st en key /\
  dict_lookup key (FredApp.get_consumer_indices fred st en) =
    group_entry fred FredApp.consumer_series_map st en key /\
  dict_lookup key (FredApp.get_financial_condition_indices fred st en) =
    group_entry fred FredApp.financial_series_map st en key.
Proof.
  repeat split; apply group_values_lookup; simpl;
    repeat (apply NoDup_cons; [simpl; intuition discriminate|]); apply NoDup_nil.
Qed.

(** ** The treasury methods of the two FRED clients *)

(** [get_treasury_yields_and_spreads] (app/ client) always returns the five
    keys in order: each yield is the NaN-dropped series of its id or None
    when the fetch failed or gave only NaN, and each spread is computed
    exactly when both of its legs are present, None otherwise. *)
Theorem app_treasury_dict fred st en :
  let y3 := FredApp.get_fred_series_value fred "DGS3MO" st en in
  let y2 := FredApp.get_fred_series_value fred "DGS2" st en in
  let y10 := FredApp.get_fred_series_value fred "DGS10" st en in
  FredApp.get_treasury_yields_and_spreads fred st en =
  [("dgs3mo", option_map PSeries y3);
   ("dgs2", option_map PSeries y2);
   ("dgs10", option_map PSeries y10);
   ("spread_10y_2y", option_map PSeries (both spread y10 y2));
   ("spread_10y_3m", option_map PSeries (both spread y10 y3))]%string.
Proof.
  cbv zeta. unfold FredApp.get_treasury_yields_and_spreads, FredApp.treasury_series_ids.
  cbn [fold_left].
  destruct (FredApp.get_fred_series_value fred "DGS3MO" st en) as [v3|] eqn:E3;
  [apply get_fred_series_value_nan_free in E3 as [_ N3]; destruct v3; [congruence|]|];
  (destruct (FredApp.get_fred_series_value fred "DGS2" st en) as [v2|] eqn:E2;
  [apply get_fred_series_value_nan_free in E2 as [_ N2]; destruct v2; [congruence|]|]);
  (destruct (FredApp.get_fred_series_value fred "DGS10" st en) as [v10|] eqn:E10;
  [apply get_fred_series_value_nan_free in E10 as [_ N10]; destruct v10; [congruence|]|]);
  reflexivity.
Qed.

Lemma latest_fred_notna fred sid st en v :
  FredLatest.get_latest_fred_series_value fred sid st en = Some v -> notna v = true.
Proof.
  unfold FredLatest.get_latest_fred_series_value.
  destruct (fred sid st en) as [data|]; [|discriminate].
  destruct (last_opt (dropna data)) as [[d x]|] eqn:E; [|discriminate].
  intros [= <-]. apply last_opt_In in E. exact (dropna_nan_free data d x E).
Qed.

Lemma floats_notna_nil : floats_notna [].
Proof. intros k x H. discriminate H. Qed.

Lemma floats_notna_cons k v d :
  (forall x, v = Some (PFloat x) -> notna x = true) ->
  floats_notna d -> floats_notna ((k, v) :: d).
Proof.
  intros Hv Hd k' x. simpl. destruct (String.eqb k' k); [|apply Hd].
  intros [= E]. exact (Hv x E).
Qed.

Lemma option_map_PFloat_notna (o : option flt) :
  (forall x, o = Some x -> notna x = true) ->
  forall x, option_map PFloat o = Some (PFloat x) -> notna x = true.
Proof. intros H x. destruct o as [y|]; simpl; [intros [= ->]; apply H|]; easy. Qed.

Lemma both_fsub_notna (oa ob : option flt) :
  (forall x, oa = Some x -> notna x = true) ->
  (forall x, ob = Some x -> notna x = true) ->
  forall x, both fsub oa ob = Some x -> notna x = true.
Proof.
  intros Ha Hb x. destruct oa as [a|], ob as [b|]; simpl; try discriminate.
  intros [= <-]. specialize (Ha a eq_refl). specialize (Hb b eq_refl).
  destruct a, b; simpl in *; congruence.
Qed.

(** [get_treasury_yields_and_spreads] (src/ client) always returns the five
    keys in order: each yield is the last non-NaN observation of its id or
    None, each spread is the difference of the two latest values exactly
    when both are present, None otherwise; no value of the dict is NaN. *)
Theorem latest_treasury_dict fred st en :
  let l3 := FredLatest.get_latest_fred_series_value fred "DGS3MO" st en in
  let l2 := FredLatest.get_latest_fred_series_value fred "DGS2" st en in
  let l10 := FredLatest.get_latest_fred_series_value fred "DGS10" st en in
  FredLatest.get_treasury_yields_and_spreads fred st en =
  [("dgs3mo", option_map PFloat l3);
   ("dgs2", option_map PFloat l2);
   ("dgs10", option_map PFloat l10);
   ("spread_10y_2y", option_map PFloat (both fsub l10 l2));
   ("spread_10y_3m", option_map PFloat (both fsub l10 l3))]%string /\
  floats_notna (FredLatest.get_treasury_yields_and_spreads fred st en).
Proof.
  cbv zeta.
  assert (E : FredLatest.get_treasury_yields_and_spreads fred st en =
    [("dgs3mo", option_map PFloat (FredLatest.get_latest_fred_series_value fred "DGS3MO" st en));
     ("dgs2", option_map PFloat (FredLatest.get_latest_fred_series_value fred "DGS2" st en));
     ("dgs10", option_map PFloat (FredLatest.get_latest_fred_series_value fred "DGS10" st en));
     ("spread_10y_2y", option_map PFloat
        (both fsub (FredLatest.get_latest_fred_series_value fred "DGS10" st en)
                   (FredLatest.get_latest_fred_series_value fred "DGS2" st en)));
     ("spread_10y_3m", option_map PFloat
        (both fsub (FredLatest.get_latest_fred_series_value fred "DGS10" st en)
                   (FredLatest.get_latest_fred_series_value fred "DGS3MO" st en)))]%string).
  { unfold FredLatest.get_treasury_yields_and_spreads, FredApp.treasury_series_ids.
    cbn [fold_left].
    destruct (FredLatest.get_latest_fred_series_value fred "DGS3MO" st en);
    destruct (FredLatest.get_latest_fred_series_value fred "DGS2" st en);
    destruct (FredLatest.get_latest_fred_series_value fred "DGS10" st en);
    reflexivity. }
  split; [exact E|]. rewrite E.
  repeat apply floats_notna_cons; try apply floats_notna_nil;
    apply option_map_PFloat_notna; try apply both_fsub_notna;
    intros x; apply latest_fred_notna.
Qed.

(** ** The "latest" clients *)

Lemma te_latest_notna resp v :
  TradingEconomics.get_latest_indicator_value resp = Some v -> notna v = true.
Proof.
  unfold TradingEconomics.get_latest_indicator_value.
  destruct resp as [[|] [|p data]|]; try discriminate.
  destruct (last_opt (dropna (p :: data))) as [[d x]|] eqn:E; [|discriminate].
  intros [= <-]. apply last_opt_In in E. exact (dropna_nan_free _ d x E).
Qed.

(** [get_leading_indicators] (src/ FRED client), [get_pmi_indicators] and
    [get_commodity_prices] hold every key of their map, in the map's order,
    each with the latest value of its series or None when that fetch
    failed or gave no value; the FRED and Trading Economics values are
    never NaN. *)
Theorem latest_clients_all_keys fred te yahoo st en :
  FredLatest.get_leading_indicators fred st en =
    map (fun '(key, series_id) =>
           (key, option_map PFloat
                   (FredLatest.get_latest_fred_series_value fred series_id st en)))
      FredApp.leading_series_map /\
  TradingEconomics.get_pmi_indicators te st en =
    map (fun '(key, indicator) =>
           (key, option_map PFloat
                   (TradingEconomics.get_latest_indicator_value
                      (te "United States"%string indicator st en))))
      TradingEconomics.indicators_map /\
  Yahoo.get_commodity_prices yahoo st en =
    map (fun '(commodity, symbol) =>
           (commodity, option_map PFloat (Yahoo.get_latest_price yahoo symbol st en)))
      Yahoo.SYMBOLS /\
  floats_notna (FredLatest.get_leading_indicators fred st en) /\
  floats_notna (TradingEconomics.get_pmi_indicators te st en).
Proof.
  assert (E1 : FredLatest.get_leading_indicators fred st en =
    map (fun '(key, series_id) =>
           (key, option_map PFloat
                   (FredLatest.get_latest_fred_series_value fred series_id st en)))
      FredApp.leading_series_map) by reflexivity.
  assert (E2 : TradingEconomics.get_pmi_indicators te st en =
    map (fun '(key, indicator) =>
           (key, option_map PFloat
                   (TradingEconomics.get_latest_indicator_value
                      (te "United States"%string indicator st en))))
      TradingEconomics.indicators_map) by reflexivity.
  split; [exact E1|]. split; [exact E2|]. split; [reflexivity|].
  rewrite E1, E2. simpl. split;
    repeat apply floats_notna_cons; try apply floats_notna_nil;
    apply option_map_PFloat_notna; intros x;
    [apply latest_fred_notna | apply latest_fred_notna
    | apply te_latest_notna | apply te_latest_notna | apply te_latest_notna].
Qed.

(** ** The per-series methods of the service *)

(** The per-series methods [fetch_and_store_leading_index],
    [fetch_and_store_bbk_index], [fetch_and_store_treasury_yield_3m/2y/10y],
    [fetch_and_store_consumer_credit], [fetch_and_store_consumer_sentiment],
    [fetch_and_store_disposable_income], [fetch_and_store_crude_oil] and
    [fetch_and_store_gold] call a client method their client does not
    define: whatever the data, each raises [AttributeError] naming that
    method and leaves the table unchanged. *)
Theorem per_series_methods_raise (frame : option Series) (data : option PyObj)
    (end_date : Z) (s : Store) :
  Service.fetch_and_store_leading_index frame s =
    (Raise (AttributeError "get_leading_index"), s) /\
  Service.fetch_and_store_bbk_index frame s =
    (Raise (AttributeError "get_bbk_index"), s) /\
  Service.fetch_and_store_treasury_yield_3m data end_date s =
    (Raise (AttributeError "get_treasury_yield_3m"), s) /\
  Service.fetch_and_store_treasury_yield_2y data end_date s =
    (Raise (AttributeError "get_treasury_yield_2y"), s) /\
  Service.fetch_and_store_treasury_yield_10y data end_date s =
    (Raise (AttributeError "get_treasury_yield_10y"), s) /\
  Service.fetch_and_store_consumer_credit data end_date s =
    (Raise (AttributeError "get_consumer_credit"), s) /\
  Service.fetch_and_store_consumer_sentiment data end_date s =
    (Raise (AttributeError "get_consumer_sentiment"), s) /\
  Service.fetch_and_store_disposable_income data end_date s =
    (Raise (AttributeError "get_disposable_income"), s) /\
  Service.fetch_and_store_crude_oil data end_date s =
    (Raise (AttributeError "get_crude_oil_price"), s) /\
  Service.fetch_and_store_gold data end_date s =
    (Raise (AttributeError "get_gold_price"), s).
Proof. repeat split. Qed.

(** ** The indicators router *)

(** [GET /api/indicators/us] and [GET /api/indicators/china] answer every
    request with status 500 and the [AttributeError] of the missing
    repository method [find_by_region_date_range], and change nothing. *)
Theorem get_endpoints_always_500 st en s :
  Controller.get_us_economic_indicators st en s =
    (Controller.HttpError 500 (AttributeError "find_by_region_date_range"), s) /\
  Controller.get_china_economic_indicators st en s =
    (Controller.HttpError 500 (AttributeError "find_by_region_date_range"), s).
Proof. split; reflexivity. Qed.

Lemma raise_after_four {A B} (c1 c2 c3 c4 : M bool) (e : PyExc)
    (k : bool -> bool -> bool -> bool -> A -> M B) s :
  (a <- c1 ;; b <- c2 ;; c <- c3 ;; d <- c4 ;; x <- raise e ;; k a b c d x) s =
  match (c1 ;;; c2 ;;; c3 ;;; c4) s with
  | (Ok _, s') => (Raise e, s')
  | (Raise e', s') => (Raise e', s')
  end.
Proof.
  unfold bind, raise.
  destruct (c1 s) as [[a|e1] s1]; [|reflexivity].
  destruct (c2 s1) as [[b|e2] s2]; [|reflexivity].
  destruct (c3 s2) as [[c|e3] s3]; [|reflexivity].
  destruct (c4 s3) as [[d|e4] s4]; reflexivity.
Qed.

(** [POST /api/indicators/fetch-store-all-macro-indices] runs the leading,
    consumer, financial and treasury orchestrations in that order and stops
    at the first exception; when all four succeed it fails on the missing
    [fetch_and_store_pmi_indicators_by_date_range]. So it always answers
    500, the rows written before the failure stay, and the commodity
    orchestration never runs. *)
Theorem post_all_always_500 fred yahoo st en now_c now_f now_t now_m s :
  Controller.fetch_and_store_all_macro_indices fred yahoo st en now_c now_f now_t now_m s =
  match (Service.fetch_and_store_leading_indicators_by_date_range fred st en ;;;
         Service.fetch_and_store_consumer_indices_by_date_range fred st en now_c ;;;
         Service.fetch_and_store_financial_condition_indices_by_date_range fred st en now_f ;;;
         Service.fetch_and_store_treasury_data_by_date_range fred st en now_t) s with
  | (Ok _, s') =>
      (Controller.HttpError 500
         (AttributeError "fetch_and_store_pmi_indicators_by_date_range"), s')
  | (Raise e, s') => (Controller.HttpError 500 e, s')
  end.
Proof.
  unfold Controller.fetch_and_store_all_macro_indices, Controller.handle,
    Service.fetch_and_store_pmi_indicators_by_date_range.
  rewrite raise_after_four.
  destruct ((Service.fetch_and_store_leading_indicators_by_date_range fred st en ;;;
         Service.fetch_and_store_consumer_indices_by_date_range fred st en now_c ;;;
         Service.fetch_and_store_financial_condition_indices_by_date_range fred st en now_f ;;;
         Service.fetch_and_store_treasury_data_by_date_range fred st en now_t) s)
    as [[?|?] ?]; reflexivity.
Qed.

(** ** Concrete instances of the repository and upsert properties *)

Lemma repo_create_then_get_witness :
  ids_below store_one_dgs10 /\
  fst (Repo.get_by_id 8
         (snd (Repo.create "DGS2" "TREASURY_2Y_YIELD" (Fin 420) d1 false "US"
                 store_one_dgs10))) =
    Ok (Some (mkRow 8 "DGS2" "TREASURY_2Y_YIELD" (Fin 420) d1 false "US" 0)).
Proof.
  assert (H : ids_below store_one_dgs10) by (intros r [<-|[]]; simpl; lia).
  split; [exact H|].
  exact (proj1 (proj2 (proj2 (repo_create_then_get "DGS2" "TREASURY_2Y_YIELD" (Fin 420) d1
                                false "US" store_one_dgs10 H) eq_refl))).
Defined.

Lemma repo_update_then_get_witness :
  Forall (fun kw => forall v, kw <> Repo.KwId v) [Repo.KwValue (Fin 440)] /\
  fst (Repo.get_by_id 7 (snd (Repo.update 7 [Repo.KwValue (Fin 440)] store_one_dgs10))) =
    Ok (Some (mkRow 7 "DGS10" "TREASURY_10Y_YIELD" (Fin 440) d1 false "US" 0)).
Proof.
  assert (H : Forall (fun kw => forall v, kw <> Repo.KwId v) [Repo.KwValue (Fin 440)])
    by (repeat constructor; intros v; discriminate).
  split; [exact H|].
  exact (proj1 (proj2 (proj2 (proj2 (repo_update_then_get 7 [Repo.KwValue (Fin 440)]
                                        store_one_dgs10 H)
                                 (mkRow 7 "DGS10" "TREASURY_10Y_YIELD" (Fin 430) d1 false "US" 0)
                                 eq_refl) eq_refl))).
Defined.

Lemma upsert_then_find_witness :
  (count_day "DGS10" d2 store_one_dgs10 <= 1)%nat /\
  fst (Repo.find_by_type_and_date "DGS10" d2
         (snd (Service.upsert "DGS10" "TREASURY_10Y_YIELD" (PFloat (Fin 460)) d2 false "US"
                 store_one_dgs10))) =
    Ok (Some (mkRow 8 "DGS10" "TREASURY_10Y_YIELD" (Fin 460) d2 false "US" 0)).
Proof.
  assert (H : (count_day "DGS10" d2 store_one_dgs10 <= 1)%nat) by (vm_compute; lia).
  split; [exact H|].
  exact (proj2 (proj1 (upsert_then_find "DGS10" "TREASURY_10Y_YIELD" (Fin 460) d2 false "US"
                         store_one_dgs10 H) eq_refl)).
Defined.

(** ** Upsert of a value [float()] rejects *)

(** When [float(value)] fails (a Series without exactly one element), the
    upsert step of a save routine raises [TypeError] after it has already
    deleted (and committed the deletion of) the row it found for that type
    and calendar day, and creates nothing. *)
Theorem upsert_unconvertible_deletes ty nm obj dt lead region s :
  float_of obj = None ->
  Service.upsert ty nm obj dt lead region s =
  (Raise TypeError,
   match find (Repo.day_filter ty dt) (rows s) with
   | Some r => snd (Repo.delete r s)
   | None => s
   end).
Proof. intros H. rewrite upsert_unfold, H. reflexivity. Qed.

Lemma upsert_unconvertible_deletes_witness :
  float_of (PSeries dgs10_ex) = None /\
  Service.upsert "DGS10" "TREASURY_10Y_YIELD" (PSeries dgs10_ex) d1 false "US"
    store_one_dgs10 = (Raise TypeError, mkStore [] 8 0).
Proof.
  assert (H : float_of (PSeries dgs10_ex) = None) by reflexivity.
  split; [exact H|].
  rewrite (upsert_unconvertible_deletes "DGS10" "TREASURY_10Y_YIELD" (PSeries dgs10_ex)
             d1 false "US" store_one_dgs10 H).
  reflexivity.
Defined.
